(** * file_organizer: classification, placement and the watcher's debounce

    A shallow embedding of [file_organizer.py] (class [FileOrganizer]) and of
    [watcher.py] (class [FileOrganizerHandler]).

    - Python [str] is modelled by [string], a text outside ASCII by its
      UTF-8 encoding; [Str.lower] changes the letters [A]-[Z], so it is
      [str.lower] on the texts whose other characters [str.lower] leaves as
      they are.
    - [pathlib.Path] is modelled by its parsed form (root and components) with
      the POSIX flavour of CPython's pathlib (3.10 to 3.13).
    - The file system is a finite map from paths to nodes, together with an
      oracle that lets every system call fail with an exception.
    - A method that mutates [self] or the file system is a function from the
      state to an outcome and the next state; an outcome is a returned value,
      a raised exception, or running out of fuel in the one [while] loop of
      the program. *)

From Stdlib Require Import String Ascii DecimalString DecimalNat ZArith Lia.
From stdpp Require Import base decidable option list gmap strings.

Local Open Scope string_scope.
Local Open Scope list_scope.
Local Open Scope nat_scope.

(** ** Python strings *)

Module Str.

(** One of the letters [A]-[Z] *)
Definition is_ascii_upper (c : ascii) : bool :=
  let n := nat_of_ascii c in (65 <=? n)%nat && (n <=? 90)%nat.

Definition lower_char (c : ascii) : ascii :=
  if is_ascii_upper c then ascii_of_nat (nat_of_ascii c + 32) else c.

(** [s.lower()] *)
Fixpoint lower (s : string) : string :=
  match s with
  | EmptyString => EmptyString
  | String c s' => String (lower_char c) (lower s')
  end.







(** [c in s] for a one-character [c] *)
Fixpoint contains (c : ascii) (s : string) : bool :=
  match s with
  | EmptyString => false
  | String d s' => bool_decide (c = d) || contains c s'
  end.

(** [s.rfind(c)]; [None] stands for Python's [-1] *)
Fixpoint rfind (c : ascii) (s : string) : option nat :=
  match s with
  | EmptyString => None
  | String d s' =>
      match rfind c s' with
      | Some i => Some (S i)
      | None => if bool_decide (c = d) then Some 0 else None
      end
  end.

(** [s[:n]] *)
Fixpoint take (n : nat) (s : string) : string :=
  match n, s with
  | S n', String c s' => String c (take n' s')
  | _, _ => EmptyString
  end.

(** [s[n:]] *)
Fixpoint drop (n : nat) (s : string) : string :=
  match n, s with
  | S n', String _ s' => drop n' s'
  | _, _ => s
  end.

(** [s.split(sep)] for a one-character separator *)
Fixpoint split (sep : ascii) (s : string) : list string :=
  match s with
  | EmptyString => [EmptyString]
  | String c s' =>
      if bool_decide (c = sep) then EmptyString :: split sep s'
      else match split sep s' with
           | x :: r => String c x :: r
           | [] => [String c EmptyString]
           end
  end.

(** [sep.join(l)] *)
Fixpoint join (sep : string) (l : list string) : string :=
  match l with
  | [] => EmptyString
  | [x] => x
  | x :: r => x +:+ sep +:+ join sep r
  end.

(** [str(n)] for a non-negative [int] *)
Definition of_nat (n : nat) : string := NilEmpty.string_of_uint (Nat.to_uint n).

(** [x in l] for a list of strings *)
Definition in_list (x : string) (l : list string) : bool := bool_decide (x ∈ l).

End Str.

(** ** pathlib paths (POSIX flavour) *)

Record Path := mkPath { root : string; parts : list string }.

Global Instance Path_eq_dec : EqDecision Path.
Proof. solve_decision. Defined.

Global Instance Path_countable : Countable Path.
Proof.
  refine (inj_countable' (λ p, (root p, parts p)) (λ x, mkPath x.1 x.2) _).
  by intros [].
Defined.

(** [posixpath.splitroot] without the (always empty) drive *)
Definition splitroot (s : string) : string * string :=
  match s with
  | String "/" (String "/" (String "/" r)) => ("/", String "/" (String "/" r))
  | String "/" (String "/" r) => ("//", r)
  | String "/" r => ("/", r)
  | _ => (EmptyString, s)
  end.

Definition is_part (x : string) : bool :=
  negb (bool_decide (x = EmptyString)) && negb (bool_decide (x = ".")).

(** [Path(s)] *)
Definition Path_of_string (s : string) : Path :=
  let '(rt, rel) := splitroot s in
  mkPath rt (filter (λ x, is_part x = true) (Str.split "/" rel)).

(** [p / s] *)
Definition joinpath (p : Path) (s : string) : Path :=
  let q := Path_of_string s in
  if bool_decide (root q = EmptyString) then mkPath (root p) (parts p ++ parts q) else q.

(** [p.parent] *)
Definition parent (p : Path) : Path :=
  match parts p with
  | [] => p
  | _ => mkPath (root p) (removelast (parts p))
  end.

(** [p.name] *)
Definition name (p : Path) : string := default EmptyString (last (parts p)).

Definition suffix_of_name (n : string) : string :=
  match Str.rfind "." n with
  | Some i => if (0 <? i)%nat && (i <? String.length n - 1)%nat then Str.drop i n else EmptyString
  | None => EmptyString
  end.

Definition stem_of_name (n : string) : string :=
  match Str.rfind "." n with
  | Some i => if (0 <? i)%nat && (i <? String.length n - 1)%nat then Str.take i n else n
  | None => n
  end.

(** [p.suffix] *)
Definition suffix (p : Path) : string := suffix_of_name (name p).

(** [p.stem] *)
Definition stem (p : Path) : string := stem_of_name (name p).

(** [str(p)] *)
Definition str (p : Path) : string :=
  match root p, parts p with
  | EmptyString, [] => "."
  | r, ps => r +:+ Str.join "/" ps
  end.

(** A component of a parsed path is not empty, is not ["."] and holds no
    separator. *)
Definition wf_part (x : string) : bool := is_part x && negb (Str.contains "/" x).

Definition wf_path (p : Path) : Prop := Forall (λ x, wf_part x = true) (parts p).

(** ** Exceptions and outcomes *)

(** [except PermissionError] is told apart from [except Exception as e];
    [OtherError cls msg] is any other exception, of class [cls], with
    [str(e) = msg]. *)
Inductive exn :=
  | PermissionError (msg : string)
  | OtherError (cls msg : string).

Inductive res (A : Type) :=
  | Ok (a : A)
  | Raise (e : exn)
  | OutOfFuel.

Arguments Ok {A} a.
Arguments Raise {A} e.
Arguments OutOfFuel {A}.

(** ** The file system *)

Record node := mkNode { is_directory : bool; st_size : nat; st_mtime : Z }.

Inductive syscall := SysExists | SysIsDir | SysStat | SysMkdir | SysMove.

(** [fault c p = Some e]: the call [c] on the path [p] raises [e]. *)
Record FS := mkFS {
  entries : gmap Path node;
  fault : syscall → Path → option exn
}.

Definition set_entries (es : gmap Path node) (fs : FS) : FS := mkFS es (fault fs).

Definition sys {A} (fs : FS) (c : syscall) (p : Path) (k : res A) : res A :=
  match fault fs c p with
  | Some e => Raise e
  | None => k
  end.

(** [p.exists()] *)
Definition path_exists (fs : FS) (p : Path) : res bool :=
  sys fs SysExists p (Ok (bool_decide (is_Some (entries fs !! p)))).

(** [p.is_dir()] *)
Definition path_is_dir (fs : FS) (p : Path) : res bool :=
  sys fs SysIsDir p
    (Ok match entries fs !! p with
        | Some n => is_directory n
        | None => false
        end).

(** [p.stat()] *)
Definition path_stat (fs : FS) (p : Path) : res node :=
  sys fs SysStat p
    match entries fs !! p with
    | Some n => Ok n
    | None => Raise (OtherError "FileNotFoundError" (str p))
    end.

(** The time stamp of a directory made by the program is not read by it. *)
Definition new_dir : node := mkNode true 0 0.

(** The net effect of [mkdir(parents=True, exist_ok=True)]: every prefix of
    the path, shortest first, is kept when it is a directory, made when it is
    missing, and refused when it is something else. *)
Fixpoint mkdir_chain (rt : string) (done todo : list string) (es : gmap Path node)
  : res unit * gmap Path node :=
  match todo with
  | [] => (Ok tt, es)
  | x :: todo' =>
      let q := mkPath rt (done ++ [x]) in
      match es !! q with
      | Some n =>
          if is_directory n then mkdir_chain rt (done ++ [x]) todo' es
          else (Raise (OtherError
                         (match todo' with [] => "FileExistsError" | _ => "NotADirectoryError" end)
                         (str q)), es)
      | None => mkdir_chain rt (done ++ [x]) todo' (<[q := new_dir]> es)
      end
  end.

(** [p.mkdir(parents=True, exist_ok=True)] *)
Definition path_mkdir (fs : FS) (p : Path) : res unit * FS :=
  match fault fs SysMkdir p with
  | Some e => (Raise e, fs)
  | None =>
      let '(r, es) := mkdir_chain (root p) [] (parts p) (entries fs) in
      (r, set_entries es fs)
  end.

(** [shutil.move(str(src), str(dst))]: into [dst] when it is a directory,
    else onto [dst], replacing what is there. *)
Definition shutil_move (fs : FS) (src dst : Path) : res unit * FS :=
  match fault fs SysMove src with
  | Some e => (Raise e, fs)
  | None =>
      match entries fs !! src with
      | None => (Raise (OtherError "FileNotFoundError" (str src)), fs)
      | Some n =>
          let into_dir :=
            match entries fs !! dst with
            | Some d => is_directory d
            | None => false
            end in
          let real_dst := if into_dir then joinpath dst (name src) else dst in
          if into_dir && bool_decide (is_Some (entries fs !! real_dst)) then
            (Raise (OtherError "Error"
                      ("Destination path '" +:+ str real_dst +:+ "' already exists")), fs)
          else (Ok tt, set_entries (<[real_dst := n]> (delete src (entries fs))) fs)
      end
  end.

(** ** Configuration ([self.config]) *)

(** One value of [organize_rules]; a missing ["extensions"] is the empty
    list, as [rules.get("extensions", [])] has it. *)
Record Rule := mkRule { extensions : list string; target_folder : string }.

(** The fields read through [self.config.get(key, default)] hold the default
    when the key is missing; [duplicate_handling] keeps the distinction.
    [organize_rules] is the dict in its insertion order. *)
Record Config := mkConfig {
  organize_rules : list (string * Rule);
  ignore_extensions : list string;
  ignore_files : list string;
  organize_by_date : bool;
  date_format : string;
  duplicate_handling : option string;
  dry_run : bool
}.

(** ** The organizer's state *)

Record Stats := mkStats { moved : nat; skipped : nat; errors : nat }.

Inductive level := DEBUG | INFO | WARNING | ERROR.

Record LogRecord := mkLog { lvl : level; message : string }.

(** The world and [self]: the file system, [self.stats] and what was handed
    to [self.logger]. *)
Record State := mkState { fs : FS; stats : Stats; log : list LogRecord }.

Definition M (A : Type) : Type := State → res A * State.

Definition ret {A} (a : A) : M A := λ s, (Ok a, s).

Definition raise {A} (e : exn) : M A := λ s, (Raise e, s).

Definition bind {A B} (m : M A) (f : A → M B) : M B := λ s,
  match m s with
  | (Ok a, s') => f a s'
  | (Raise e, s') => (Raise e, s')
  | (OutOfFuel, s') => (OutOfFuel, s')
  end.

(** [try: m except ... as e: h e] *)
Definition try_except {A} (m : M A) (h : exn → M A) : M A := λ s,
  match m s with
  | (Raise e, s') => h e s'
  | r => r
  end.

Global Instance M_ret : MRet M := @ret.

Global Instance M_bind : MBind M := λ A B f m, bind m f.

(** A call that reads the file system *)
Definition read_fs {A} (f : FS → res A) : M A := λ s, (f (fs s), s).

(** A call that changes the file system *)
Definition write_fs (f : FS → res unit * FS) : M unit := λ s,
  let '(r, fs') := f (fs s) in (r, mkState fs' (stats s) (log s)).

Definition logger (l : level) (msg : string) : M unit := λ s,
  (Ok tt, mkState (fs s) (stats s) (log s ++ [mkLog l msg])).

Definition incr_moved : M unit := λ s,
  (Ok tt, mkState (fs s) (mkStats (S (moved (stats s))) (skipped (stats s)) (errors (stats s))) (log s)).

Definition incr_skipped : M unit := λ s,
  (Ok tt, mkState (fs s) (mkStats (moved (stats s)) (S (skipped (stats s))) (errors (stats s))) (log s)).

Definition incr_errors : M unit := λ s,
  (Ok tt, mkState (fs s) (mkStats (moved (stats s)) (skipped (stats s)) (S (errors (stats s)))) (log s)).

(** ** FileOrganizer *)

(** The [for category, rules in ...items()] loop of [_get_file_category] *)
Fixpoint find_category (extension : string) (rules : list (string * Rule)) : option string :=
  match rules with
  | [] => None
  | (category, rule) :: rest =>
      if Str.in_list extension (extensions rule) then Some category
      else find_category extension rest
  end.

(** [FileOrganizer._get_file_category]; [None] is Python's [None]. *)
Definition _get_file_category (cfg : Config) (file_path : Path) : option string :=
  let extension := Str.lower (suffix file_path) in
  if Str.in_list extension (ignore_extensions cfg) then None
  else if Str.in_list (name file_path) (ignore_files cfg) then None
  else match find_category extension (organize_rules cfg) with
       | Some category => Some category
       | None => Some "Extras"
       end.

(** The spec's wording of [category(file, ruleset)], to compare with the
    code. *)
Definition category_spec (cfg : Config) (file_path : Path) : option string :=
  let ext := Str.lower (suffix file_path) in
  if bool_decide (ext ∈ ignore_extensions cfg ∨ name file_path ∈ ignore_files cfg) then None
  else match list_find (λ cr, ext ∈ extensions cr.2) (organize_rules cfg) with
       | Some (_, (c, _)) => Some c
       | None => Some "Extras"
       end.

(** [self.config["organize_rules"][category]] *)
Fixpoint lookup_rule (category : string) (rules : list (string * Rule)) : option Rule :=
  match rules with
  | [] => None
  | (c, rule) :: rest => if bool_decide (c = category) then Some rule else lookup_rule category rest
  end.

(** The literal of [_get_target_path]'s [else] branch *)
Definition default_extras : Path :=
  Path_of_string "C:\Users\lnloh\Documents\Organized\Extras".

(** The base folder chosen by the first [if] of [_get_target_path] *)
Definition base_folder (cfg : Config) (category : string) : M Path :=
  if bool_decide (category = "Extras") then
    let base_paths :=
      map (λ cr, parent (Path_of_string (target_folder cr.2))) (organize_rules cfg) in
    match base_paths with
    | b :: _ => mret (joinpath b "Extras")
    | [] => mret default_extras
    end
  else
    match lookup_rule category (organize_rules cfg) with
    | Some rules => mret (Path_of_string (target_folder rules))
    | None => raise (OtherError "KeyError" ("'" +:+ category +:+ "'"))
    end.

(** [new_name = f"{stem}_{counter}{suffix}"] in the [while] loop of
    [_handle_duplicate] *)
Definition candidate_name (target_path : Path) (counter : nat) : string :=
  stem target_path +:+ "_" +:+ Str.of_nat counter +:+ suffix target_path.

(** [parent / new_name]: the candidate tried when the counter is [counter] *)
Definition candidate (target_path : Path) (counter : nat) : Path :=
  joinpath (parent target_path) (candidate_name target_path counter).

(** The [while target_path.exists()] loop; [orig] is the path the method was
    called with, from which [stem], [suffix] and [parent] were read. *)
Fixpoint rename_loop (fuel : nat) (fs : FS) (orig : Path) (counter : nat) (target_path : Path)
  : res Path :=
  match fuel with
  | 0 => OutOfFuel
  | S fuel' =>
      match path_exists fs target_path with
      | Ok true => rename_loop fuel' fs orig (S counter) (candidate orig counter)
      | Ok false => Ok target_path
      | Raise e => Raise e
      | OutOfFuel => OutOfFuel
      end
  end.

(** [FileOrganizer._handle_duplicate] *)
Definition _handle_duplicate (fuel : nat) (cfg : Config) (fs : FS) (target_path : Path)
  : res (option Path) :=
  match path_exists fs target_path with
  | Ok false => Ok (Some target_path)
  | Ok true =>
      let duplicate_handling := default "rename" (duplicate_handling cfg) in
      if bool_decide (duplicate_handling = "skip") then Ok None
      else if bool_decide (duplicate_handling = "overwrite") then Ok (Some target_path)
      else match rename_loop fuel fs target_path 1 target_path with
           | Ok p => Ok (Some p)
           | Raise e => Raise e
           | OutOfFuel => OutOfFuel
           end
  | Raise e => Raise e
  | OutOfFuel => OutOfFuel
  end.

(** [if not category] *)
Definition falsy (category : option string) : bool :=
  match category with
  | None => true
  | Some c => bool_decide (c = EmptyString)
  end.

Definition permission_denied_msg (file_path : Path) : string :=
  "Permission denied: " +:+ str file_path.

Definition error_organizing_msg (file_path : Path) (msg : string) : string :=
  "Error organizing " +:+ str file_path +:+ ": " +:+ msg.

Section Program.

(** [datetime.fromtimestamp(mtime).strftime(date_format)] *)
Variable strftime : string → Z → string.

(** [FileOrganizer._get_target_path] *)
Definition _get_target_path (cfg : Config) (file_path : Path) (category : string) : M Path :=
  folder ← base_folder cfg category;
  folder ← (if organize_by_date cfg then
              st ← read_fs (λ fs, path_stat fs file_path);
              mret (joinpath folder (strftime (date_format cfg) (st_mtime st)))
            else mret folder);
  write_fs (λ fs, path_mkdir fs folder);;
  mret (joinpath folder (name file_path)).

(** The [try] block of [organize_file] *)
Definition organize_file_body (fuel : nat) (cfg : Config) (file_path : Path) : M bool :=
  d ← read_fs (λ fs, path_is_dir fs file_path);
  if d : bool then mret false
  else
    let category := _get_file_category cfg file_path in
    if falsy category then
      logger DEBUG ("Skipping ignored file: " +:+ name file_path);;
      incr_skipped;;
      mret false
    else
      target_path ← _get_target_path cfg file_path (default EmptyString category);
      target_path ← read_fs (λ fs, _handle_duplicate fuel cfg fs target_path);
      match target_path with
      | None =>
          logger INFO ("Skipping duplicate: " +:+ name file_path);;
          incr_skipped;;
          mret false
      | Some target_path =>
          (if dry_run cfg then
             logger INFO ("[DRY RUN] Would move: " +:+ str file_path +:+ " -> " +:+ str target_path)
           else
             write_fs (λ fs, shutil_move fs file_path target_path);;
             logger INFO ("Moved: " +:+ name file_path +:+ " -> " +:+ default EmptyString category
                           +:+ "/" +:+ name target_path));;
          incr_moved;;
          mret true
      end.

(** The two [except] clauses of [organize_file], and the [return False] that
    follows them *)
Definition organize_file_handler (file_path : Path) (e : exn) : M bool :=
  match e with
  | PermissionError _ =>
      logger ERROR (permission_denied_msg file_path);;
      incr_errors
  | OtherError _ msg =>
      logger ERROR (error_organizing_msg file_path msg);;
      incr_errors
  end;;
  mret false.

(** [FileOrganizer.organize_file] *)
Definition organize_file (fuel : nat) (cfg : Config) (file_path : Path) : M bool :=
  try_except (organize_file_body fuel cfg file_path) (organize_file_handler file_path).

(** The loop [for file_path in files: self.organize_file(file_path)] of
    [organize_directory] *)
Fixpoint organize_files (fuel : nat) (cfg : Config) (files : list Path) : M unit :=
  match files with
  | [] => mret tt
  | file_path :: rest =>
      organize_file fuel cfg file_path;;
      organize_files fuel cfg rest
  end.

(** ** FileOrganizerHandler (watcher.py) *)

(** A watchdog event *)
Record Event := mkEvent { ev_is_directory : bool; src_path : string; dest_path : string }.

(** [self.organizer] with the world it acts on, [self.processing_files], and
    the [remove_from_processing] threads that were started and have not yet
    discarded their path. *)
Record Handler := mkHandler {
  organizer : State;
  processing_files : gset string;
  timers : list string
}.

(** [time.sleep]: while the handler sleeps, other programs act on the file
    system. *)
Definition sleep (env : FS → FS) : M unit := λ s,
  (Ok tt, mkState (env (fs s)) (stats s) (log s)).

(** [str(e)] *)
Definition exn_msg (e : exn) : string :=
  match e with
  | PermissionError msg => msg
  | OtherError _ msg => msg
  end.

(** The [try] block of [_process_file] after the path was marked; [env1]
    and [env2] are what the other programs do during [time.sleep(1)] and
    [time.sleep(0.5)]. *)
Definition process_file_body (fuel : nat) (cfg : Config) (env1 env2 : FS → FS)
    (file_path : Path) (event_type : string) : M unit :=
  sleep env1;;
  e ← read_fs (λ fs, path_exists fs file_path);
  if negb e then mret tt
  else
    st ← read_fs (λ fs, path_stat fs file_path);
    let initial_size := st_size st in
    sleep env2;;
    e ← read_fs (λ fs, path_exists fs file_path);
    if negb e then mret tt
    else
      st ← read_fs (λ fs, path_stat fs file_path);
      let current_size := st_size st in
      if negb (bool_decide (initial_size = current_size)) then
        logger DEBUG ("File still being written: " +:+ name file_path)
      else
        logger INFO ("New file " +:+ event_type +:+ ": " +:+ name file_path);;
        organize_file fuel cfg file_path;;
        mret tt.

Definition process_file_handler (file_path : Path) (e : exn) : M unit :=
  logger ERROR ("Error processing " +:+ str file_path +:+ ": " +:+ exn_msg e).

(** [FileOrganizerHandler._process_file]; the [finally] clause starts a
    thread, recorded in [timers]. *)
Definition _process_file (fuel : nat) (cfg : Config) (env1 env2 : FS → FS)
    (file_path : Path) (event_type : string) (h : Handler) : res unit * Handler :=
  if bool_decide (str file_path ∈ processing_files h) then (Ok tt, h)
  else
    let processing := {[str file_path]} ∪ processing_files h in
    let '(r, o) :=
      try_except (process_file_body fuel cfg env1 env2 file_path event_type)
                 (process_file_handler file_path) (organizer h) in
    match r with
    | OutOfFuel => (OutOfFuel, mkHandler o processing (timers h))
    | _ => (r, mkHandler o processing (timers h ++ [str file_path]))
    end.

(** One started thread comes to its end. *)
Fixpoint remove_first (path : string) (l : list string) : list string :=
  match l with
  | [] => []
  | x :: r => if bool_decide (x = path) then r else x :: remove_first path r
  end.

(** The body of a started thread, once its [time.sleep(5)] is over:
    [self.processing_files.discard(str(file_path))] *)
Definition remove_from_processing (path : string) (h : Handler) : Handler :=
  mkHandler (organizer h) (processing_files h ∖ {[path]}) (remove_first path (timers h)).

(** [FileOrganizerHandler.on_created] *)
Definition on_created (fuel : nat) (cfg : Config) (env1 env2 : FS → FS)
    (event : Event) (h : Handler) : res unit * Handler :=
  if ev_is_directory event then (Ok tt, h)
  else _process_file fuel cfg env1 env2 (Path_of_string (src_path event)) "created" h.

(** [FileOrganizerHandler.on_moved] *)
Definition on_moved (fuel : nat) (cfg : Config) (env1 env2 : FS → FS)
    (event : Event) (h : Handler) : res unit * Handler :=
  if ev_is_directory event then (Ok tt, h)
  else _process_file fuel cfg env1 env2 (Path_of_string (dest_path event)) "moved" h.



(** The configuration with another value of ["duplicate_handling"] *)
Definition with_duplicate_handling (d : option string) (cfg : Config) : Config :=
  mkConfig (organize_rules cfg) (ignore_extensions cfg) (ignore_files cfg)
           (organize_by_date cfg) (date_format cfg) d (dry_run cfg).

(** What the two [except] clauses of [organize_file] leave behind: one
    more error counted and one record logged at level [ERROR]. *)
Definition error_message (file_path : Path) (e : exn) : string :=
  match e with
  | PermissionError _ => permission_denied_msg file_path
  | OtherError _ msg => error_organizing_msg file_path msg
  end.

Definition record_error (file_path : Path) (e : exn) (st : State) : State :=
  mkState (fs st)
          (mkStats (moved (stats st)) (skipped (stats st)) (S (errors (stats st))))
          (log st ++ [mkLog ERROR (error_message file_path e)]).

(** The state after a dry run that reached its end *)
Definition record_dry_run (file_path target_path : Path) (st : State) : State :=
  mkState (fs st)
          (mkStats (S (moved (stats st))) (skipped (stats st)) (errors (stats st)))
          (log st ++ [mkLog INFO ("[DRY RUN] Would move: " +:+ str file_path
                                  +:+ " -> " +:+ str target_path)]).

(** [q] is a directory of the file system. *)
Definition is_dir_in (es : gmap Path node) (q : Path) : Prop :=
  ∃ n, es !! q = Some n ∧ is_directory n = true.

(** The handler after an event for [file_path] that it took up and turned
    down: the path is marked, a thread is started to release it, the file
    system is what the other programs made of it, and [self.organizer] was
    not used; [records] is what the handler logged. *)
Definition rejected (file_path : Path) (fs' : FS) (records : list LogRecord) (h : Handler)
  : Handler :=
  mkHandler (mkState fs' (stats (organizer h)) (log (organizer h) ++ records))
            ({[str file_path]} ∪ processing_files h)
            (timers h ++ [str file_path]).

Definition still_written_record (file_path : Path) : LogRecord :=
  mkLog DEBUG ("File still being written: " +:+ name file_path).

Definition new_file_record (file_path : Path) (event_type : string) : LogRecord :=
  mkLog INFO ("New file " +:+ event_type +:+ ": " +:+ name file_path).

(** Every string that the configuration holds *)
Definition config_strings (cfg : Config) : list string :=
  concat (map (λ cr, cr.1 :: target_folder cr.2 :: extensions cr.2) (organize_rules cfg))
  ++ ignore_extensions cfg ++ ignore_files cfg ++ [date_format cfg]
  ++ match duplicate_handling cfg with Some d => [d] | None => [] end.

(** ** The paths through organize_file *)

(** The state after a file was skipped: one record logged, one more file
    counted as skipped. *)
Definition record_skip (r : LogRecord) (st : State) : State :=
  mkState (fs st)
          (mkStats (moved (stats st)) (S (skipped (stats st))) (errors (stats st)))
          (log st ++ [r]).

(** The state after [shutil.move] returned: the record of the move logged,
    one more file counted as moved. *)
Definition record_moved (file_path target_path : Path) (category : string) (fs' : FS)
    (st : State) : State :=
  mkState fs'
          (mkStats (S (moved (stats st))) (skipped (stats st)) (errors (stats st)))
          (log st ++ [mkLog INFO ("Moved: " +:+ name file_path +:+ " -> " +:+ category
                                  +:+ "/" +:+ name target_path)]).

(** The ways through the [try] block of [organize_file], one constructor for
    each [return] and for each call that can raise. *)
Inductive body_case (fuel : nat) (cfg : Config) (file_path : Path) (st : State)
  : res bool → State → Prop :=
  | case_directory :
      path_is_dir (fs st) file_path = Ok true →
      body_case fuel cfg file_path st (Ok false) st
  | case_is_dir_raises e :
      path_is_dir (fs st) file_path = Raise e →
      body_case fuel cfg file_path st (Raise e) st
  | case_ignored :
      path_is_dir (fs st) file_path = Ok false →
      falsy (_get_file_category cfg file_path) = true →
      body_case fuel cfg file_path st (Ok false)
        (record_skip (mkLog DEBUG ("Skipping ignored file: " +:+ name file_path)) st)
  | case_target_raises category e s2 :
      path_is_dir (fs st) file_path = Ok false →
      _get_file_category cfg file_path = Some category → category ≠ EmptyString →
      _get_target_path cfg file_path category st = (Raise e, s2) →
      body_case fuel cfg file_path st (Raise e) s2
  | case_duplicate_raises category target_path s2 e :
      path_is_dir (fs st) file_path = Ok false →
      _get_file_category cfg file_path = Some category → category ≠ EmptyString →
      _get_target_path cfg file_path category st = (Ok target_path, s2) →
      _handle_duplicate fuel cfg (fs s2) target_path = Raise e →
      body_case fuel cfg file_path st (Raise e) s2
  | case_out_of_fuel category target_path s2 :
      path_is_dir (fs st) file_path = Ok false →
      _get_file_category cfg file_path = Some category → category ≠ EmptyString →
      _get_target_path cfg file_path category st = (Ok target_path, s2) →
      _handle_duplicate fuel cfg (fs s2) target_path = OutOfFuel →
      body_case fuel cfg file_path st OutOfFuel s2
  | case_duplicate_skipped category target_path s2 :
      path_is_dir (fs st) file_path = Ok false →
      _get_file_category cfg file_path = Some category → category ≠ EmptyString →
      _get_target_path cfg file_path category st = (Ok target_path, s2) →
      _handle_duplicate fuel cfg (fs s2) target_path = Ok None →
      body_case fuel cfg file_path st (Ok false)
        (record_skip (mkLog INFO ("Skipping duplicate: " +:+ name file_path)) s2)
  | case_dry_run category target_path s2 final_path :
      path_is_dir (fs st) file_path = Ok false →
      _get_file_category cfg file_path = Some category → category ≠ EmptyString →
      _get_target_path cfg file_path category st = (Ok target_path, s2) →
      _handle_duplicate fuel cfg (fs s2) target_path = Ok (Some final_path) →
      dry_run cfg = true →
      body_case fuel cfg file_path st (Ok true) (record_dry_run file_path final_path s2)
  | case_move_raises category target_path s2 final_path e fs' :
      path_is_dir (fs st) file_path = Ok false →
      _get_file_category cfg file_path = Some category → category ≠ EmptyString →
      _get_target_path cfg file_path category st = (Ok target_path, s2) →
      _handle_duplicate fuel cfg (fs s2) target_path = Ok (Some final_path) →
      dry_run cfg = false →
      shutil_move (fs s2) file_path final_path = (Raise e, fs') →
      body_case fuel cfg file_path st (Raise e) (mkState fs' (stats s2) (log s2))
  | case_moved category target_path s2 final_path fs' :
      path_is_dir (fs st) file_path = Ok false →
      _get_file_category cfg file_path = Some category → category ≠ EmptyString →
      _get_target_path cfg file_path category st = (Ok target_path, s2) →
      _handle_duplicate fuel cfg (fs s2) target_path = Ok (Some final_path) →
      dry_run cfg = false →
      shutil_move (fs s2) file_path final_path = (Ok tt, fs') →
      body_case fuel cfg file_path st (Ok true)
        (record_moved file_path final_path category fs' s2).

(** ** organize_directory, run and main *)

(** The keys of [self.config] that [organize_file] does not read *)
Record RunConfig := mkRunConfig {
  config : Config;
  recursive : bool;
  watch_directories : list string
}.

(** The two list comprehensions of [organize_directory]:
    [[f for f in dir_path.rglob("*") if f.is_file()]] when the flag is set,
    [[f for f in dir_path.iterdir() if f.is_file()]] when it is not. What the
    enumeration yields, in which order, and when it raises is left open. *)
Variable list_files : bool → FS → Path → res (list Path).

(** [FileOrganizer.organize_directory] *)
Definition organize_directory (fuel : nat) (rc : RunConfig) (directory : string) : M unit :=
  let dir_path := Path_of_string directory in
  e ← read_fs (λ fs, path_exists fs dir_path);
  if negb e then logger ERROR ("Directory does not exist: " +:+ directory)
  else
    d ← read_fs (λ fs, path_is_dir fs dir_path);
    if negb d then logger ERROR ("Not a directory: " +:+ directory)
    else
      logger INFO ("Organizing directory: " +:+ directory);;
      files ← read_fs (λ fs, list_files (recursive rc) fs dir_path);
      logger INFO ("Found " +:+ Str.of_nat (length files) +:+ " files to process");;
      organize_files fuel (config rc) files.

(** The loop [for directory in watch_dirs: self.organize_directory(directory)] *)
Fixpoint organize_directories (fuel : nat) (rc : RunConfig) (dirs : list string) : M unit :=
  match dirs with
  | [] => mret tt
  | directory :: rest =>
      organize_directory fuel rc directory;;
      organize_directories fuel rc rest
  end.

(** ["=" * 60] *)
Definition rule_line : string :=
  "============================================================".

(** The six records that end [run] *)
Definition summary_records (s : Stats) : list LogRecord :=
  [mkLog INFO rule_line;
   mkLog INFO "Organization Complete!";
   mkLog INFO ("Files moved: " +:+ Str.of_nat (moved s));
   mkLog INFO ("Files skipped: " +:+ Str.of_nat (skipped s));
   mkLog INFO ("Errors: " +:+ Str.of_nat (errors s));
   mkLog INFO rule_line].

(** The three records that begin [run] *)
Definition start_records : list LogRecord :=
  [mkLog INFO rule_line; mkLog INFO "File Organizer Started"; mkLog INFO rule_line].

Definition log_summary : M unit := λ s,
  (Ok tt, mkState (fs s) (stats s) (log s ++ summary_records (stats s))).

Definition log_records (rs : list LogRecord) : M unit := λ s,
  (Ok tt, mkState (fs s) (stats s) (log s ++ rs)).

(** [FileOrganizer.run] *)
Definition run (fuel : nat) (rc : RunConfig) : M unit :=
  log_records start_records;;
  match watch_directories rc with
  | [] => logger WARNING "No watch directories configured!"
  | _ =>
      organize_directories fuel rc (watch_directories rc);;
      log_summary
  end.

(** The command line of [file_organizer.py] *)
Record Args := mkArgs { arg_dry_run : bool; arg_show_config : bool }.

Definition with_dry_run (b : bool) (cfg : Config) : Config :=
  mkConfig (organize_rules cfg) (ignore_extensions cfg) (ignore_files cfg)
           (organize_by_date cfg) (date_format cfg) (duplicate_handling cfg) b.

(** [main] of [file_organizer.py], once the configuration is loaded;
    [print_config_info] writes to the standard output only, which is not part
    of the state. *)
Definition main (fuel : nat) (args : Args) (rc : RunConfig) : M unit :=
  let rc :=
    if arg_dry_run args
    then mkRunConfig (with_dry_run true (config rc)) (recursive rc) (watch_directories rc)
    else rc in
  if arg_show_config args then mret tt
  else run fuel rc.

(** A computation that removes and changes no entry of the file system *)
Definition keeps_entries {A} (m : M A) : Prop :=
  ∀ st q n, entries (fs st) !! q = Some n → entries (fs (m st).2) !! q = Some n.

(** ** FileWatcher.start *)

(** What [FileWatcher.start] comes to: the directories that are watched, one
    observer for each, or [sys.exit(code)]. *)
Inductive started := Watching (observers : list string) | SysExit (code : nat).

(** The loop [for directory in watch_dirs] of [start]; [observers] is
    [self.observers], each observer given by the path it was scheduled on. *)
Fixpoint start_loop (dirs : list string) (observers : list string) : M (list string) :=
  match dirs with
  | [] => mret observers
  | directory :: rest =>
      let dir_path := Path_of_string directory in
      e ← read_fs (λ fs, path_exists fs dir_path);
      if negb e then
        logger WARNING ("Directory does not exist: " +:+ directory);;
        start_loop rest observers
      else
        logger INFO ("Watching directory: " +:+ directory);;
        start_loop rest (observers ++ [str dir_path])
  end.

Definition running_records : list LogRecord :=
  [mkLog INFO rule_line; mkLog INFO "File Watcher is running...";
   mkLog INFO "Press Ctrl+C to stop"; mkLog INFO rule_line].

(** [FileWatcher.start] on a watcher that has no observers yet *)
Definition start (rc : RunConfig) : M started :=
  match watch_directories rc with
  | [] =>
      logger ERROR "No directories configured to watch!";;
      mret (SysExit 1)
  | dirs =>
      observers ← start_loop dirs [];
      match observers with
      | [] =>
          logger ERROR "No valid directories to watch!";;
          mret (SysExit 1)
      | _ =>
          log_records running_records;;
          mret (Watching observers)
      end
  end.

(** The configured directories that exist, as [start] schedules them *)
Definition existing_directories (fs0 : FS) (dirs : list string) : list string :=
  map (λ d, str (Path_of_string d))
      (filter (λ d, is_Some (entries fs0 !! Path_of_string d)) dirs).

Definition probe_error_record (file_path : Path) (e : exn) : LogRecord :=
  mkLog ERROR ("Error processing " +:+ str file_path +:+ ": " +:+ exn_msg e).

(** ** Sample data for the examples *)

Definition sample_rules : list (string * Rule) :=
  [("Documents", mkRule [".txt"; ".PDF"] "/base/Documents");
   ("Images", mkRule [".png"; ".txt"] "/base/Images")].

Definition sample_cfg : Config :=
  mkConfig sample_rules [".tmp"] ["ignore.me"] false "%Y-%m" None false.

Definition no_fault : syscall → Path → option exn := λ _ _, None.

Definition file_node : node := mkNode false 10 1710000000.

Definition sample_fs : FS :=
  mkFS (list_to_map
          [(Path_of_string "/base", new_dir);
           (Path_of_string "/base/Documents", new_dir);
           (Path_of_string "/base/Documents/a.txt", file_node);
           (Path_of_string "/base/Documents/a_1.txt", file_node);
           (Path_of_string "/w", new_dir);
           (Path_of_string "/w/a.txt", file_node);
           (Path_of_string "/w/b.xyz", file_node)])
       no_fault.

Definition sample_state : State := mkState sample_fs (mkStats 0 0 0) [].

Definition move_denied (c : syscall) (p : Path) : option exn :=
  match c with
  | SysMove => Some (PermissionError "[Errno 13] Permission denied")
  | _ => None
  end.

Definition denied_state : State :=
  mkState (mkFS (entries sample_fs) move_denied) (mkStats 0 0 0) [].


Definition sample_strftime : string → Z → string := λ _ _, "2024-03".

Definition no_rules_cfg : Config :=
  mkConfig [] [".tmp"] ["ignore.me"] false "%Y-%m" (Some "rename") false.

Definition keep_both_cfg : Config := with_duplicate_handling (Some "keep_both") sample_cfg.

Definition rename_cfg : Config := with_duplicate_handling (Some "rename") sample_cfg.

(** Another program appends to [/w/a.txt] while the handler sleeps. *)
Definition grow (fs0 : FS) : FS :=
  set_entries (<[Path_of_string "/w/a.txt" := mkNode false 20 1710000001]> (entries fs0)) fs0.



Definition idle_handler : Handler := mkHandler sample_state ∅ [].

Definition busy_handler : Handler := mkHandler sample_state {["/w/a.txt"]} [].

Definition skip_cfg : Config := with_duplicate_handling (Some "skip") sample_cfg.

Definition dated_cfg : Config :=
  mkConfig sample_rules [".tmp"] ["ignore.me"] true "%Y-%m" None false.

(** An enumeration for the examples: the files directly in the directory *)
Definition sample_list_files (recursive : bool) (fs0 : FS) (d : Path) : res (list Path) :=
  Ok (map fst (filter (λ pn, parent pn.1 = d ∧ is_directory pn.2 = false)
                      (map_to_list (entries fs0)))).

Definition sample_rc : RunConfig := mkRunConfig sample_cfg false ["/w"; "/nowhere"].

Definition sample_args : Args := mkArgs true false.

Definition exists_denied (c : syscall) (p : Path) : option exn :=
  match c with
  | SysExists => Some (PermissionError "[Errno 13] Permission denied")
  | _ => None
  end.

Definition unreadable_state : State :=
  mkState (mkFS (entries sample_fs) exists_denied) (mkStats 0 0 0) [].

Definition stat_denied (c : syscall) (p : Path) : option exn :=
  match c with
  | SysStat => Some (OtherError "OSError" "[Errno 5] Input/output error")
  | _ => None
  end.

Definition stat_denied_handler : Handler :=
  mkHandler (mkState (mkFS (entries sample_fs) stat_denied) (mkStats 0 0 0) []) ∅ [].

(** * Properties *)

(** ** Strings and paths *)

Example ex_suffix : suffix (Path_of_string "/home/u/Report.final.PDF") = ".PDF".
Proof. reflexivity. Qed.
Example ex_stem : stem (Path_of_string "/home/u/Report.final.PDF") = "Report.final".
Proof. reflexivity. Qed.
Example ex_hidden : suffix (Path_of_string ".bashrc") = EmptyString ∧ stem (Path_of_string "a.") = "a.".
Proof. split; reflexivity. Qed.
Example ex_join : str (joinpath (parent (Path_of_string "/base/Documents")) "Extras") = "/base/Extras".
Proof. reflexivity. Qed.
Example ex_of_nat : Str.of_nat 12 = "12" ∧ Str.lower "a.TxT" = "a.txt".
Proof. split; reflexivity. Qed.




Lemma append_cons c a b : String c a +:+ b = String c (a +:+ b).
Proof. reflexivity. Qed.

Lemma append_nil_r a : a +:+ EmptyString = a.
Proof. induction a as [|c a IH]; [done|]. by rewrite append_cons, IH. Qed.

Lemma length_app s1 s2 : String.length (s1 +:+ s2) = String.length s1 + String.length s2.
Proof.
  induction s1 as [|c s1 IH]; [done|]. rewrite append_cons. simpl. by rewrite IH.
Qed.

Lemma app_inj_r s a b : a +:+ s = b +:+ s → a = b.
Proof.
  revert b. induction a as [|c a IH]; intros [|d b] H.
  - done.
  - apply (f_equal String.length) in H. rewrite !length_app in H. simpl in H. lia.
  - apply (f_equal String.length) in H. rewrite !length_app in H. simpl in H. lia.
  - injection H as -> H. f_equal. by apply IH.
Qed.

Lemma contains_app c s1 s2 :
  Str.contains c (s1 +:+ s2) = Str.contains c s1 || Str.contains c s2.
Proof.
  induction s1 as [|d s1 IH]; [done|]. rewrite append_cons. simpl.
  by rewrite IH, orb_assoc.
Qed.

Lemma contains_take c n s : Str.contains c s = false → Str.contains c (Str.take n s) = false.
Proof.
  revert n. induction s as [|d s IH]; intros [|n] H; simpl in *; try done.
  apply orb_false_iff in H as [-> H]. simpl. by apply IH.
Qed.

Lemma contains_drop c n s : Str.contains c s = false → Str.contains c (Str.drop n s) = false.
Proof.
  revert n. induction s as [|d s IH]; intros [|n] H; simpl in *; try done.
  apply orb_false_iff in H as [_ H]. by apply IH.
Qed.

Lemma take_drop n s : Str.take n s +:+ Str.drop n s = s.
Proof.
  revert n. induction s as [|d s IH]; intros [|n]; simpl; try done.
  by rewrite append_cons, IH.
Qed.

Lemma contains_stem c n : Str.contains c n = false → Str.contains c (stem_of_name n) = false.
Proof.
  intros H. unfold stem_of_name. destruct (Str.rfind "." n); [|done].
  case_match; [by apply contains_take | done].
Qed.

Lemma contains_suffix c n : Str.contains c n = false → Str.contains c (suffix_of_name n) = false.
Proof.
  intros H. unfold suffix_of_name. destruct (Str.rfind "." n); [|done].
  case_match; [by apply contains_drop | done].
Qed.

Lemma stem_suffix n : stem_of_name n +:+ suffix_of_name n = n.
Proof.
  unfold stem_of_name, suffix_of_name. destruct (Str.rfind "." n) as [i|].
  - case_match; [apply take_drop | apply append_nil_r].
  - apply append_nil_r.
Qed.

Lemma contains_uint c d :
  Str.contains c (NilEmpty.string_of_uint d) = true → Ascii.is_nat c ≠ None.
Proof.
  induction d; simpl; try done;
    (intros [H%bool_decide_eq_true | H]%orb_true_iff; [by subst | by apply IHd]).
Qed.

Lemma contains_of_nat n : Str.contains "/" (Str.of_nat n) = false.
Proof.
  destruct (Str.contains "/" (Str.of_nat n)) eqn:E; [|done].
  by apply contains_uint in E.
Qed.

Lemma of_nat_inj n m : Str.of_nat n = Str.of_nat m → n = m.
Proof.
  unfold Str.of_nat. intros H.
  apply (f_equal NilEmpty.uint_of_string) in H. rewrite !NilEmpty.usu in H.
  injection H as H. apply (f_equal Nat.of_uint) in H.
  by rewrite !DecimalNat.Unsigned.of_to in H.
Qed.

Lemma split_no_sep c s : Str.contains c s = false → Str.split c s = [s].
Proof.
  induction s as [|d s IH]; simpl; [done|].
  intros [Hd H]%orb_false_iff. apply bool_decide_eq_false in Hd.
  rewrite bool_decide_false by congruence. by rewrite IH.
Qed.

Lemma Path_of_string_part x : wf_part x = true → Path_of_string x = mkPath EmptyString [x].
Proof.
  unfold wf_part. intros [Hp Hc%negb_true_iff]%andb_true_iff.
  unfold Path_of_string.
  assert (splitroot x = (EmptyString, x)) as ->.
  { destruct x as [|c x]; [done|]. simpl in Hc.
    apply orb_false_iff in Hc as [Hc%bool_decide_eq_false _].
    unfold splitroot. destruct c as [[] [] [] [] [] [] [] []]; try done. }
  rewrite split_no_sep by done. by rewrite filter_cons_True, filter_nil by done.
Qed.

Lemma joinpath_part p x : wf_part x = true → joinpath p x = mkPath (root p) (parts p ++ [x]).
Proof. intros H. unfold joinpath. by rewrite Path_of_string_part. Qed.

Lemma wf_name p : wf_path p → Str.contains "/" (name p) = false.
Proof.
  unfold wf_path, name. intros H.
  destruct (last (parts p)) as [x|] eqn:E; [|done]. simpl.
  apply last_Some_elem_of in E. rewrite Forall_forall in H. apply H in E.
  unfold wf_part in E. apply andb_true_iff in E as [_ E]. by apply negb_true_iff.
Qed.

Lemma candidate_name_wf p k : wf_path p → wf_part (candidate_name p k) = true.
Proof.
  intros Hp. apply wf_name in Hp. unfold wf_part, candidate_name.
  apply andb_true_iff. split.
  - unfold is_part.
    assert (Str.contains "_" (stem p +:+ "_" +:+ Str.of_nat k +:+ suffix p) = true) as H.
    { rewrite contains_app. apply orb_true_iff. by right. }
    destruct (stem p +:+ "_" +:+ Str.of_nat k +:+ suffix p) as [|c [|d s]] eqn:E.
    + done.
    + simpl in H. rewrite orb_false_r in H. apply bool_decide_eq_true in H. by subst c.
    + by rewrite !bool_decide_false.
  - rewrite !contains_app, contains_of_nat.
    unfold stem, suffix. by rewrite contains_stem, contains_suffix.
Qed.

Lemma candidate_eq p k :
  wf_path p → candidate p k = mkPath (root (parent p)) (parts (parent p) ++ [candidate_name p k]).
Proof. intros Hp. unfold candidate. by apply joinpath_part, candidate_name_wf. Qed.

Lemma candidate_inj p k1 k2 : wf_path p → candidate p k1 = candidate p k2 → k1 = k2.
Proof.
  intros Hp. rewrite !candidate_eq by done. intros [= H].
  apply app_inj_tail in H as [_ H]. unfold candidate_name in H.
  apply String.app_inj in H. apply (String.app_inj "_") in H.
  apply app_inj_r in H. by apply of_nat_inj.
Qed.

Lemma split_no_sep_parts c s x : x ∈ Str.split c s → Str.contains c x = false.
Proof.
  revert x. induction s as [|d r IH]; simpl; intros x Hin.
  - apply list_elem_of_singleton in Hin. by subst.
  - case_bool_decide as Hd.
    + apply elem_of_cons in Hin as [->|Hin]; [done | by apply IH].
    + destruct (Str.split c r) as [|y l].
      * apply list_elem_of_singleton in Hin. subst. simpl.
        rewrite bool_decide_false by congruence. done.
      * apply elem_of_cons in Hin as [->|Hin].
        -- simpl. rewrite bool_decide_false by congruence. apply IH. by left.
        -- apply IH. by right.
Qed.

Lemma Path_of_string_wf s : wf_path (Path_of_string s).
Proof.
  unfold wf_path, Path_of_string. destruct (splitroot s) as [rt rel]. simpl.
  apply Forall_forall. intros x [Hx Hin]%list_elem_of_filter.
  unfold wf_part. rewrite Hx. simpl. apply negb_true_iff.
  by eapply split_no_sep_parts.
Qed.

(** ** Classification *)

Lemma find_category_list_find ext rules :
  find_category ext rules
  = (λ x, x.2.1) <$> list_find (λ cr, ext ∈ extensions cr.2) rules.
Proof.
  induction rules as [|[c r] rules IH]; [done|].
  simpl. unfold Str.in_list. case_bool_decide as H.
  - by rewrite decide_True.
  - rewrite decide_False by done. rewrite IH.
    by destruct (list_find _ rules) as [[i [c' r']]|].
Qed.

Lemma get_file_category_eq_spec cfg file_path :
  _get_file_category cfg file_path = category_spec cfg file_path.
Proof.
  unfold _get_file_category, category_spec, Str.in_list.
  rewrite find_category_list_find.
  case_bool_decide as H1.
  - rewrite bool_decide_true by (by left). done.
  - case_bool_decide as H2.
    + rewrite bool_decide_true by (by right). done.
    + rewrite bool_decide_false by (intros [|]; done).
      by destruct (list_find _ _) as [[i [c r]]|].
Qed.

Lemma find_category_first ext (pre : list (string * Rule)) c r post :
  Forall (λ cr, ext ∉ extensions cr.2) pre → ext ∈ extensions r →
  find_category ext (pre ++ (c, r) :: post) = Some c.
Proof.
  intros Hpre Hr. induction Hpre as [|[c' r'] pre Hx _ IH]; simpl; unfold Str.in_list.
  - by rewrite bool_decide_true.
  - by rewrite bool_decide_false.
Qed.

Lemma find_category_none ext rules :
  Forall (λ cr, ext ∉ extensions cr.2) rules → find_category ext rules = None.
Proof.
  induction 1 as [|[c r] rules Hx _ IH]; simpl; [done|].
  unfold Str.in_list. by rewrite bool_decide_false.
Qed.

(** An ignored extension or file name wins over every category rule. *)
Lemma category_ignored cfg file_path :
  Str.lower (suffix file_path) ∈ ignore_extensions cfg ∨ name file_path ∈ ignore_files cfg →
  _get_file_category cfg file_path = None.
Proof.
  intros H. rewrite get_file_category_eq_spec. unfold category_spec.
  by rewrite bool_decide_true.
Qed.

(** The first category, in configured order, that lists the extension *)
Lemma category_first_match cfg file_path (pre : list (string * Rule)) c r post :
  Str.lower (suffix file_path) ∉ ignore_extensions cfg →
  name file_path ∉ ignore_files cfg →
  organize_rules cfg = (pre ++ (c, r) :: post) →
  Forall (λ cr, Str.lower (suffix file_path) ∉ extensions cr.2) pre →
  Str.lower (suffix file_path) ∈ extensions r →
  _get_file_category cfg file_path = Some c.
Proof.
  intros H1 H2 Hr Hpre Hin. unfold _get_file_category, Str.in_list.
  rewrite !bool_decide_false by done. rewrite Hr.
  by rewrite (find_category_first _ pre c r post).
Qed.

Lemma category_extras cfg file_path :
  Str.lower (suffix file_path) ∉ ignore_extensions cfg →
  name file_path ∉ ignore_files cfg →
  Forall (λ cr, Str.lower (suffix file_path) ∉ extensions cr.2) (organize_rules cfg) →
  _get_file_category cfg file_path = Some "Extras".
Proof.
  intros H1 H2 Hr. unfold _get_file_category, Str.in_list.
  rewrite !bool_decide_false by done. by rewrite find_category_none.
Qed.




Example ex_category_first : _get_file_category sample_cfg (Path_of_string "/w/Notes.TXT") = Some "Documents".
Proof. reflexivity. Qed.
Example ex_category_extras : _get_file_category sample_cfg (Path_of_string "/w/file.xyz") = Some "Extras".
Proof. reflexivity. Qed.
Example ex_category_ignored :
  _get_file_category sample_cfg (Path_of_string "/w/a.TMP") = None
  ∧ _get_file_category sample_cfg (Path_of_string "/w/ignore.me") = None.
Proof. split; reflexivity. Qed.
Example ex_category_upper_rule :
  _get_file_category sample_cfg (Path_of_string "/w/a.PDF") = Some "Extras"
  ∧ _get_file_category sample_cfg (Path_of_string "/w/a.pdf") = Some "Extras".
Proof. split; reflexivity. Qed.

(** C1. [_get_file_category] lower-cases the file's extension; the result is
    [None] (ignored) when that extension is in [ignore_extensions] or the
    file's name is in [ignore_files], whatever the category rules say;
    otherwise it is the first category, in configured order, whose extension
    list holds the extension, and ["Extras"] when there is none. *)
Theorem C1_get_file_category_spec cfg file_path :
  let ext := Str.lower (suffix file_path) in
  _get_file_category cfg file_path = category_spec cfg file_path
  ∧ (ext ∈ ignore_extensions cfg ∨ name file_path ∈ ignore_files cfg →
       _get_file_category cfg file_path = None)
  ∧ (ext ∉ ignore_extensions cfg → name file_path ∉ ignore_files cfg →
       ∀ pre c r post,
         organize_rules cfg = pre ++ (c, r) :: post →
         Forall (λ cr, ext ∉ extensions cr.2) pre →
         ext ∈ extensions r →
         _get_file_category cfg file_path = Some c)
  ∧ (ext ∉ ignore_extensions cfg → name file_path ∉ ignore_files cfg →
       Forall (λ cr, ext ∉ extensions cr.2) (organize_rules cfg) →
       _get_file_category cfg file_path = Some "Extras").
Proof.
  intros ext. split; [apply get_file_category_eq_spec|].
  split; [apply category_ignored|].
  split; [|apply category_extras].
  intros H1 H2 pre c r post. by apply category_first_match.
Qed.


(** ** Duplicate resolution *)

Lemma path_exists_ok fs p :
  fault fs SysExists p = None →
  path_exists fs p = Ok (bool_decide (is_Some (entries fs !! p))).
Proof. intros H. unfold path_exists, sys. by rewrite H. Qed.

Lemma candidate_name_eq p k : wf_path p → name (candidate p k) = candidate_name p k.
Proof.
  intros Hp. rewrite candidate_eq by done. unfold name. simpl. by rewrite last_snoc.
Qed.

Lemma candidate_parent p k : wf_path p → parent (candidate p k) = parent p.
Proof.
  intros Hp. rewrite candidate_eq by done. unfold parent at 1. simpl.
  destruct (parts (parent p) ++ [candidate_name p k]) eqn:E.
  - by apply app_nil in E as [_ ?].
  - rewrite <- E, removelast_last. by destruct (parent p).
Qed.

(** The least index from [lo] on at which a decidable predicate fails *)
Lemma least_failure (P : nat → Prop) `{!∀ n, Decision (P n)} d lo :
  ¬ P (lo + d) → ∃ k, lo ≤ k ≤ lo + d ∧ ¬ P k ∧ ∀ j, lo ≤ j < k → P j.
Proof.
  revert lo. induction d as [|d IH]; intros lo Hn.
  - exists lo. rewrite Nat.add_0_r in Hn. repeat split; [lia | lia | done | lia].
  - destruct (decide (P lo)) as [Hlo|Hlo].
    + destruct (IH (S lo)) as (k & Hk & Hnk & Hlt).
      { by replace (S lo + d) with (lo + S d) by lia. }
      exists k. repeat split; [lia | lia | done |].
      intros j Hj. destruct (decide (j = lo)) as [->|]; [done | apply Hlt; lia].
    + exists lo. repeat split; [lia | lia | done | lia].
Qed.

(** Among the first [size + 1] candidates one is free: they are pairwise
    distinct and the file system is finite. *)
Lemma free_candidate_exists (es : gmap Path node) p :
  wf_path p → ∃ k, 1 ≤ k ≤ S (size es) ∧ es !! candidate p k = None.
Proof.
  intros Hp.
  destruct (decide (Forall (λ k, is_Some (es !! candidate p k)) (seq 1 (S (size es)))))
    as [Hall|Hex].
  - exfalso.
    assert (NoDup (candidate p <$> seq 1 (S (size es)))) as Hnd.
    { apply NoDup_fmap_2_strong; [|apply NoDup_seq].
      intros x y _ _. by apply candidate_inj. }
    assert (candidate p <$> seq 1 (S (size es)) ⊆+ elements (dom es)) as Hsub.
    { apply NoDup_submseteq; [done|].
      intros q (k & -> & Hk)%list_elem_of_fmap.
      rewrite Forall_forall in Hall. apply elem_of_elements, elem_of_dom. by apply Hall. }
    apply submseteq_length in Hsub.
    rewrite length_fmap, length_seq in Hsub.
    change (length (elements (dom es))) with (size (dom es)) in Hsub.
    rewrite size_dom in Hsub. lia.
  - apply not_Forall_Exists in Hex; [|apply _].
    apply Exists_exists in Hex as (k & Hk%elem_of_seq & Hnone).
    exists k. split; [lia|]. by apply eq_None_not_Some.
Qed.

Lemma least_free_candidate (es : gmap Path node) p :
  wf_path p →
  ∃ k, 1 ≤ k ≤ S (size es) ∧ es !! candidate p k = None
       ∧ ∀ j, 1 ≤ j < k → is_Some (es !! candidate p j).
Proof.
  intros Hp. destruct (free_candidate_exists es p Hp) as (k0 & Hk0 & Hfree).
  destruct (least_failure (λ j, is_Some (es !! candidate p j)) (k0 - 1) 1)
    as (k & Hk & Hnk & Hlt).
  { replace (1 + (k0 - 1)) with k0 by lia. rewrite Hfree. by intros [? ?]. }
  exists k. split; [lia|]. split; [by apply eq_None_not_Some | done].
Qed.

(** The loop, started at [counter] on an existing path, returns the first free
    candidate from [counter] on, when it has fuel for every test. *)
Lemma rename_loop_run fs orig d : ∀ counter target_path fuel,
  (∀ p, fault fs SysExists p = None) →
  is_Some (entries fs !! target_path) →
  (∀ j, counter ≤ j < counter + d → is_Some (entries fs !! candidate orig j)) →
  entries fs !! candidate orig (counter + d) = None →
  d + 2 ≤ fuel →
  rename_loop fuel fs orig counter target_path = Ok (candidate orig (counter + d)).
Proof.
  induction d as [|d IH]; intros counter target_path fuel Hf Ht Hbusy Hfree Hfuel.
  - destruct fuel as [|[|fuel]]; [lia | lia |].
    rewrite Nat.add_0_r in *. simpl.
    rewrite !path_exists_ok by done.
    rewrite bool_decide_true by done. rewrite bool_decide_false; [done|].
    rewrite Hfree. by intros [? ?].
  - destruct fuel as [|fuel]; [lia|]. simpl.
    rewrite path_exists_ok by done. rewrite bool_decide_true by done.
    replace (counter + S d) with (S counter + d) in * by lia.
    apply IH; [done | apply Hbusy; lia | intros j Hj; apply Hbusy; lia | done | lia].
Qed.

Lemma handle_duplicate_free fuel cfg fs target_path :
  fault fs SysExists target_path = None →
  entries fs !! target_path = None →
  _handle_duplicate fuel cfg fs target_path = Ok (Some target_path).
Proof.
  intros Hf Hn. unfold _handle_duplicate. rewrite path_exists_ok by done.
  rewrite bool_decide_false; [done|]. rewrite Hn. by intros [? ?].
Qed.

Lemma handle_duplicate_skip fuel cfg fs target_path :
  fault fs SysExists target_path = None →
  is_Some (entries fs !! target_path) →
  duplicate_handling cfg = Some "skip" →
  _handle_duplicate fuel cfg fs target_path = Ok None.
Proof.
  intros Hf Hs Hd. unfold _handle_duplicate. rewrite path_exists_ok by done.
  rewrite bool_decide_true by done. by rewrite Hd.
Qed.

Lemma handle_duplicate_overwrite fuel cfg fs target_path :
  fault fs SysExists target_path = None →
  is_Some (entries fs !! target_path) →
  duplicate_handling cfg = Some "overwrite" →
  _handle_duplicate fuel cfg fs target_path = Ok (Some target_path).
Proof.
  intros Hf Hs Hd. unfold _handle_duplicate. rewrite path_exists_ok by done.
  rewrite bool_decide_true by done. by rewrite Hd.
Qed.

Lemma handle_duplicate_rename cfg fs target_path :
  (∀ p, fault fs SysExists p = None) →
  wf_path target_path →
  is_Some (entries fs !! target_path) →
  duplicate_handling cfg ≠ Some "skip" →
  duplicate_handling cfg ≠ Some "overwrite" →
  ∃ k, 1 ≤ k ≤ S (size (entries fs))
       ∧ entries fs !! candidate target_path k = None
       ∧ (∀ j, 1 ≤ j < k → is_Some (entries fs !! candidate target_path j))
       ∧ ∀ fuel, k < fuel →
           _handle_duplicate fuel cfg fs target_path = Ok (Some (candidate target_path k)).
Proof.
  intros Hf Hwf Hs Hd1 Hd2.
  destruct (least_free_candidate (entries fs) target_path Hwf) as (k & Hk & Hfree & Hbusy).
  exists k. repeat split; [lia | lia | done | done |].
  intros fuel Hfuel. unfold _handle_duplicate. rewrite path_exists_ok by done.
  rewrite bool_decide_true by done.
  rewrite bool_decide_false by (destruct (duplicate_handling cfg); simpl; congruence).
  rewrite bool_decide_false by (destruct (duplicate_handling cfg); simpl; congruence).
  rewrite (rename_loop_run fs target_path (k - 1) 1 target_path fuel); try done.
  - by replace (1 + (k - 1)) with k by lia.
  - intros j Hj. apply Hbusy. lia.
  - by replace (1 + (k - 1)) with k by lia.
  - lia.
Qed.

(** C2. With an [exists()] that does not fail, [_handle_duplicate] returns
    the destination when nothing exists there; [None] when something exists
    and the policy is ["skip"]; the destination when something exists and the
    policy is ["overwrite"]; and, when something exists and the policy is
    ["rename"], the candidate [stem_k + suffix] next to the destination with
    the least [k >= 1] at which nothing exists. That [k] is at most the
    number of entries of the file system plus one, and the loop returns as
    soon as it has fuel for [k + 1] tests. *)
Theorem C2_handle_duplicate cfg fs target_path
    (Hfault : ∀ p, fault fs SysExists p = None) (Hwf : wf_path target_path) :
  (entries fs !! target_path = None →
     ∀ fuel, _handle_duplicate fuel cfg fs target_path = Ok (Some target_path))
  ∧ (is_Some (entries fs !! target_path) → duplicate_handling cfg = Some "skip" →
     ∀ fuel, _handle_duplicate fuel cfg fs target_path = Ok None)
  ∧ (is_Some (entries fs !! target_path) → duplicate_handling cfg = Some "overwrite" →
     ∀ fuel, _handle_duplicate fuel cfg fs target_path = Ok (Some target_path))
  ∧ (is_Some (entries fs !! target_path) → duplicate_handling cfg = Some "rename" →
     ∃ k, 1 ≤ k ≤ S (size (entries fs))
          ∧ entries fs !! candidate target_path k = None
          ∧ (∀ j, 1 ≤ j < k → is_Some (entries fs !! candidate target_path j))
          ∧ parent (candidate target_path k) = parent target_path
          ∧ name (candidate target_path k)
            = stem target_path +:+ "_" +:+ Str.of_nat k +:+ suffix target_path
          ∧ stem target_path +:+ suffix target_path = name target_path
          ∧ ∀ fuel, k < fuel →
              _handle_duplicate fuel cfg fs target_path
              = Ok (Some (candidate target_path k))).
Proof.
  split; [|split; [|split]].
  - intros Hn fuel. by apply handle_duplicate_free.
  - intros Hs Hd fuel. by apply handle_duplicate_skip.
  - intros Hs Hd fuel. by apply handle_duplicate_overwrite.
  - intros Hs Hd.
    destruct (handle_duplicate_rename cfg fs target_path) as (k & Hk & Hfree & Hbusy & Hrun);
      [done | done | done | by rewrite Hd | by rewrite Hd |].
    exists k. split; [done|]. split; [done|]. split; [done|].
    split; [by apply candidate_parent|]. split; [by apply candidate_name_eq|].
    split; [apply stem_suffix | done].
Qed.

(** C10. Every value of ["duplicate_handling"] other than ["skip"] and
    ["overwrite"], a missing one included, makes [_handle_duplicate] do what
    it does for ["rename"]. *)
Theorem C10_other_values_rename cfg fuel fs target_path :
  duplicate_handling cfg ≠ Some "skip" →
  duplicate_handling cfg ≠ Some "overwrite" →
  _handle_duplicate fuel cfg fs target_path
  = _handle_duplicate fuel (with_duplicate_handling (Some "rename") cfg) fs target_path.
Proof.
  intros H1 H2. unfold _handle_duplicate. simpl.
  destruct (path_exists fs target_path) as [[|]| |]; try done.
  rewrite bool_decide_false by (destruct (duplicate_handling cfg); simpl; congruence).
  by rewrite bool_decide_false by (destruct (duplicate_handling cfg); simpl; congruence).
Qed.

Example ex_rename :
  _handle_duplicate 5 sample_cfg sample_fs (Path_of_string "/base/Documents/a.txt")
  = Ok (Some (Path_of_string "/base/Documents/a_2.txt")).
Proof. vm_compute. reflexivity. Qed.

Example ex_rename_out_of_fuel :
  _handle_duplicate 2 sample_cfg sample_fs (Path_of_string "/base/Documents/a.txt") = OutOfFuel.
Proof. vm_compute. reflexivity. Qed.

(** Whatever [exists()] does, the loop does not run out of fuel once it has
    enough to reach a free candidate. *)
Lemma rename_loop_no_timeout fs orig d : ∀ counter target_path fuel,
  entries fs !! candidate orig (counter + d) = None →
  d + 2 ≤ fuel →
  rename_loop fuel fs orig counter target_path ≠ OutOfFuel.
Proof.
  induction d as [|d IH]; intros counter target_path fuel Hfree Hfuel.
  - destruct fuel as [|[|fuel]]; [lia | lia |].
    rewrite Nat.add_0_r in Hfree. simpl. unfold path_exists, sys.
    destruct (fault fs SysExists target_path); [done|].
    case_bool_decide; [|done].
    destruct (fault fs SysExists (candidate orig counter)); [done|].
    rewrite bool_decide_false; [done|]. rewrite Hfree. by intros [? ?].
  - destruct fuel as [|fuel]; [lia|]. simpl. unfold path_exists at 1, sys.
    destruct (fault fs SysExists target_path); [done|].
    case_bool_decide; [|done].
    apply IH; [|lia]. by replace (S counter + d) with (counter + S d) by lia.
Qed.

Lemma handle_duplicate_no_timeout fuel cfg fs target_path :
  wf_path target_path →
  size (entries fs) + 2 ≤ fuel →
  _handle_duplicate fuel cfg fs target_path ≠ OutOfFuel.
Proof.
  intros Hwf Hfuel.
  destruct (free_candidate_exists (entries fs) target_path Hwf) as (k & Hk & Hfree).
  pose proof (rename_loop_no_timeout fs target_path (k - 1) 1 target_path fuel) as Hloop.
  replace (1 + (k - 1)) with k in Hloop by lia.
  specialize (Hloop Hfree ltac:(lia)).
  unfold _handle_duplicate.
  destruct (path_exists fs target_path) as [[|]|e|] eqn:E; try done.
  - repeat case_bool_decide; try done.
    by destruct (rename_loop fuel fs target_path 1 target_path).
  - unfold path_exists, sys in E. by destruct (fault fs SysExists target_path).
Qed.

(** ** Paths built by the program are well formed *)

Lemma joinpath_wf p s : wf_path p → wf_path (joinpath p s).
Proof.
  intros Hp. unfold joinpath. case_bool_decide; [|apply Path_of_string_wf].
  unfold wf_path. simpl. apply Forall_app. split; [done | apply Path_of_string_wf].
Qed.

Lemma parent_wf p : wf_path p → wf_path (parent p).
Proof.
  unfold wf_path, parent. intros Hp.
  destruct (parts p) as [|x l] eqn:E; [by rewrite E|].
  change (Forall (λ y, wf_part y = true) (removelast (x :: l))).
  destruct (exists_last (l:=x :: l)) as (l' & a & Hl); [done|].
  rewrite Hl in *. rewrite removelast_last. by apply Forall_app in Hp as [? _].
Qed.

Lemma default_extras_wf : wf_path default_extras.
Proof. apply Path_of_string_wf. Qed.

(** ** The monad *)

Ltac unfold_m :=
  unfold mbind, M_bind, bind, mret, M_ret, ret, raise, read_fs, write_fs, logger,
    incr_moved, incr_skipped, incr_errors, try_except in *.

(** ** _get_target_path *)

Lemma joinpath_Extras b : joinpath b "Extras" = mkPath (root b) (parts b ++ ["Extras"]).
Proof. by apply joinpath_part. Qed.

Lemma base_folder_extras cfg st :
  base_folder cfg "Extras" st
  = (Ok match organize_rules cfg with
        | (_, r) :: _ =>
            let b := parent (Path_of_string (target_folder r)) in
            mkPath (root b) (parts b ++ ["Extras"])
        | [] => Path_of_string "C:\Users\lnloh\Documents\Organized\Extras"
        end, st).
Proof.
  unfold base_folder. rewrite bool_decide_true by done.
  destruct (organize_rules cfg) as [|[c r] rest]; simpl; [done|].
  by rewrite joinpath_Extras.
Qed.

Lemma base_folder_state cfg category st r st1 :
  base_folder cfg category st = (r, st1) → st1 = st ∧ r ≠ OutOfFuel.
Proof.
  unfold base_folder. unfold_m. intros H.
  repeat case_match; simplify_eq; done.
Qed.

Lemma base_folder_wf cfg category st p st1 :
  base_folder cfg category st = (Ok p, st1) → wf_path p.
Proof.
  unfold base_folder. unfold_m. case_bool_decide.
  - destruct (organize_rules cfg) as [|[c r] rest]; simpl; intros [= <- _].
    + apply default_extras_wf.
    + apply joinpath_wf, parent_wf, Path_of_string_wf.
  - destruct (lookup_rule category (organize_rules cfg)); intros [= <- _].
    apply Path_of_string_wf.
Qed.

Lemma mkdir_chain_spec rt todo : ∀ done es r es',
  mkdir_chain rt done todo es = (r, es') →
  (∀ p n, es !! p = Some n → es' !! p = Some n)
  ∧ r ≠ OutOfFuel
  ∧ (r = Ok tt → ∀ i, 0 < i ≤ length todo →
       is_dir_in es' (mkPath rt (done ++ take i todo))).
Proof.
  induction todo as [|x todo IH]; intros done es r es' H; simpl in H.
  - injection H as <- <-. repeat split; [done | done | simpl; lia].
  - assert (∀ i, 0 < i → done ++ take i (x :: todo) = (done ++ [x]) ++ take (i - 1) todo)
      as Htake.
    { intros [|i] Hi; [lia|]. simpl. rewrite Nat.sub_0_r. by rewrite <- app_assoc. }
    destruct (es !! mkPath rt (done ++ [x])) as [n|] eqn:Hq.
    + destruct (is_directory n) eqn:Hn.
      * apply IH in H as (Hpres & Hfuel & Hdirs). repeat split; [done | done |].
        intros Hr i Hi. rewrite Htake by lia.
        destruct (decide (i = 1)) as [->|].
        -- simpl. rewrite take_0, app_nil_r. exists n. split; [by apply Hpres | done].
        -- apply Hdirs; [done|]. simpl in Hi. lia.
      * injection H as <- <-. repeat split; done.
    + apply IH in H as (Hpres & Hfuel & Hdirs). repeat split; [| done |].
      * intros p n Hp. apply Hpres. rewrite lookup_insert_ne; [done|]. congruence.
      * intros Hr i Hi. rewrite Htake by lia.
        destruct (decide (i = 1)) as [->|].
        -- simpl. rewrite take_0, app_nil_r. exists new_dir.
           split; [apply Hpres, lookup_insert_eq | done].
        -- apply Hdirs; [done|]. simpl in Hi. lia.
Qed.

Lemma path_mkdir_spec fs p r fs' :
  path_mkdir fs p = (r, fs') →
  fault fs' = fault fs
  ∧ (∀ q n, entries fs !! q = Some n → entries fs' !! q = Some n)
  ∧ r ≠ OutOfFuel
  ∧ (r = Ok tt → ∀ i, 0 < i ≤ length (parts p) →
       is_dir_in (entries fs') (mkPath (root p) (take i (parts p)))).
Proof.
  unfold path_mkdir. destruct (fault fs SysMkdir p) as [e|].
  - intros [= <- <-]. repeat split; done.
  - destruct (mkdir_chain (root p) [] (parts p) (entries fs)) as [r' es'] eqn:E.
    intros [= <- <-]. apply mkdir_chain_spec in E as (Hpres & Hfuel & Hdirs).
    repeat split; done.
Qed.

Lemma bind_inv {A B} (m : M A) (f : A → M B) st r st2 :
  (m ≫= f) st = (r, st2) →
  (∃ a st1, m st = (Ok a, st1) ∧ f a st1 = (r, st2))
  ∨ (∃ e, m st = (Raise e, st2) ∧ r = Raise e)
  ∨ (m st = (OutOfFuel, st2) ∧ r = OutOfFuel).
Proof.
  unfold mbind, M_bind, bind. destruct (m st) as [[a|e|] st1]; intros H.
  - left. by exists a, st1.
  - right. left. injection H as <- <-. by exists e.
  - right. right. by injection H as <- <-.
Qed.

Lemma mkdir_then_return folder file_path st r st1 :
  wf_path folder →
  (write_fs (λ fs, path_mkdir fs folder);; mret (joinpath folder (name file_path))) st
  = (r, st1) →
  stats st1 = stats st ∧ log st1 = log st ∧ fault (fs st1) = fault (fs st)
  ∧ (∀ q n, entries (fs st) !! q = Some n → entries (fs st1) !! q = Some n)
  ∧ r ≠ OutOfFuel
  ∧ (∀ target_path, r = Ok target_path →
       ∃ folder, wf_path folder ∧ target_path = joinpath folder (name file_path)
         ∧ ∀ i, 0 < i ≤ length (parts folder) →
             is_dir_in (entries (fs st1)) (mkPath (root folder) (take i (parts folder)))).
Proof.
  intros Hwf H.
  assert (∃ r0 fs', path_mkdir (fs st) folder = (r0, fs')
                    ∧ write_fs (λ fs, path_mkdir fs folder) st
                      = (r0, mkState fs' (stats st) (log st))) as (r0 & fs' & Em & Hw).
  { unfold write_fs. destruct (path_mkdir (fs st) folder) as [r0 fs']. by exists r0, fs'. }
  apply path_mkdir_spec in Em as (Hf & Hpres & Hfuel & Hdirs).
  apply bind_inv in H as [(a & s1 & Ha & Hr)|[(e & Ha & ->)|(Ha & ->)]];
    rewrite Hw in Ha; simplify_eq; simpl.
  - injection Hr as <- <-. simpl. repeat split; try done.
    intros t [= <-]. exists folder. destruct a. repeat split; try done; by apply Hdirs.
  - repeat split; done.
Qed.

(** [_get_target_path] touches neither the counters nor the log; it only adds
    directories; and when it returns, the folder of the returned path and all
    the ancestors of that folder are directories. *)
Lemma get_target_path_spec cfg file_path category st r st1 :
  _get_target_path cfg file_path category st = (r, st1) →
  stats st1 = stats st ∧ log st1 = log st ∧ fault (fs st1) = fault (fs st)
  ∧ (∀ q n, entries (fs st) !! q = Some n → entries (fs st1) !! q = Some n)
  ∧ r ≠ OutOfFuel
  ∧ (∀ target_path, r = Ok target_path →
       ∃ folder, wf_path folder ∧ target_path = joinpath folder (name file_path)
         ∧ ∀ i, 0 < i ≤ length (parts folder) →
             is_dir_in (entries (fs st1)) (mkPath (root folder) (take i (parts folder)))).
Proof.
  unfold _get_target_path. intros H.
  apply bind_inv in H as [(base & s1 & Hb & H)|[(e & Hb & ->)|(Hb & ->)]].
  - pose proof Hb as [-> _]%base_folder_state. apply base_folder_wf in Hb.
    apply bind_inv in H as [(folder & s2 & Hfo & H)|[(e & Hfo & ->)|(Hfo & ->)]].
    + destruct (organize_by_date cfg).
      * apply bind_inv in Hfo as [(nd & s3 & [= Hs <-] & [= <- <-])|[(e & [= _ _] & [=])|(_ & [=])]].
        eapply mkdir_then_return; [|done]. by apply joinpath_wf.
      * injection Hfo as <- <-. by eapply mkdir_then_return.
    + destruct (organize_by_date cfg); [|done].
      apply bind_inv in Hfo as [(nd & s3 & _ & [=])|[(e' & [= Hs <-] & _)|(_ & [=])]].
      repeat split; done.
    + destruct (organize_by_date cfg); [|done].
      apply bind_inv in Hfo as [(nd & s3 & _ & [=])|[(e' & _ & [=])|([= Hs <-] & _)]].
      unfold path_stat, sys in Hs. repeat case_match; done.
  - apply base_folder_state in Hb as [-> _]. repeat split; done.
  - by apply base_folder_state in Hb as [_ ?].
Qed.

(** ** organize_file *)

Lemma read_fs_inv {A} (f : FS → res A) st r st1 :
  read_fs f st = (r, st1) → st1 = st ∧ r = f (fs st).
Proof. unfold read_fs. by intros [= <- <-]. Qed.

Lemma shutil_move_spec fs0 src dst r fs' :
  shutil_move fs0 src dst = (r, fs') →
  r ≠ OutOfFuel ∧ (∀ e, r = Raise e → fs' = fs0).
Proof.
  unfold shutil_move. intros H.
  repeat case_match; simplify_eq; split; try done.
Qed.

Lemma organize_file_directory fuel cfg file_path st :
  path_is_dir (fs st) file_path = Ok true →
  organize_file fuel cfg file_path st = (Ok false, st).
Proof.
  intros H. unfold organize_file, organize_file_body. unfold_m. by rewrite H.
Qed.

Lemma organize_file_caught fuel cfg file_path st e st1 :
  organize_file_body fuel cfg file_path st = (Raise e, st1) →
  organize_file fuel cfg file_path st = (Ok false, record_error file_path e st1).
Proof.
  intros H. unfold organize_file, try_except. rewrite H.
  unfold organize_file_handler. by destruct e.
Qed.

Lemma organize_file_never_raises fuel cfg file_path st e :
  (organize_file fuel cfg file_path st).1 ≠ Raise e.
Proof.
  unfold organize_file, try_except.
  destruct (organize_file_body fuel cfg file_path st) as [[b|e'|] st1]; [done| |done].
  unfold organize_file_handler. by destruct e'.
Qed.

(** Up to the point where the [try] block fails, neither the counters nor the
    log were touched. *)
Lemma organize_file_body_raise fuel cfg file_path st e st1 :
  organize_file_body fuel cfg file_path st = (Raise e, st1) →
  stats st1 = stats st ∧ log st1 = log st.
Proof.
  unfold organize_file_body. intros H.
  apply bind_inv in H as [(d & s1 & Hd & H)|[(e1 & Hd & _)|(_ & [=])]];
    apply read_fs_inv in Hd as [-> Hd]; [|done].
  destruct d; [done|].
  destruct (falsy (_get_file_category cfg file_path)); [done|].
  apply bind_inv in H as [(t & s2 & Ht & H)|[(e1 & Ht & _)|(_ & [=])]];
    apply get_target_path_spec in Ht as (Hs & Hl & _); [|done].
  rewrite <- Hs, <- Hl. clear Hs Hl.
  apply bind_inv in H as [(t' & s3 & Ht' & H)|[(e1 & Ht' & _)|(_ & [=])]];
    apply read_fs_inv in Ht' as [-> Ht']; [|done].
  destruct t' as [t'|]; [|done].
  destruct (dry_run cfg); [done|].
  unfold_m.
  destruct (shutil_move (fs s2) file_path t') as [[[]|e1|] fs'] eqn:Em; simpl in H; [done| |done].
  by injection H as <- <-.
Qed.

Lemma bind_ok {A B} (m : M A) (f : A → M B) st a s1 :
  m st = (Ok a, s1) → (m ≫= f) st = f a s1.
Proof. intros H. unfold mbind, M_bind, bind. by rewrite H. Qed.

Lemma bind_raise {A B} (m : M A) (f : A → M B) st e s1 :
  m st = (Raise e, s1) → (m ≫= f) st = (Raise e, s1).
Proof. intros H. unfold mbind, M_bind, bind. by rewrite H. Qed.

Lemma read_fs_eq {A} (f : FS → res A) st r : f (fs st) = r → read_fs f st = (r, st).
Proof. unfold read_fs. by intros ->. Qed.

Lemma get_target_path_wf cfg file_path category st target_path st1 :
  _get_target_path cfg file_path category st = (Ok target_path, st1) → wf_path target_path.
Proof.
  intros H. apply get_target_path_spec in H as (_ & _ & _ & _ & _ & H).
  destruct (H target_path eq_refl) as (folder & Hwf & -> & _). by apply joinpath_wf.
Qed.

(** With enough fuel for the [while] loop the [try] block comes to an end. *)
Lemma organize_file_body_no_timeout cfg file_path st :
  ∃ n, ∀ fuel, n ≤ fuel → (organize_file_body fuel cfg file_path st).1 ≠ OutOfFuel.
Proof.
  unfold organize_file_body. cbv zeta.
  destruct (path_is_dir (fs st) file_path) as [[|]|e|] eqn:Ed.
  - exists 0. intros fuel _. by erewrite bind_ok by by apply read_fs_eq.
  - destruct (falsy (_get_file_category cfg file_path)) eqn:Ef.
    { exists 0. intros fuel _. by erewrite bind_ok by by apply read_fs_eq. }
    destruct (_get_target_path cfg file_path
                (default EmptyString (_get_file_category cfg file_path)) st) as [[t|e|] s2] eqn:Et.
    + exists (size (entries (fs s2)) + 2). intros fuel Hfuel.
      erewrite bind_ok by by apply read_fs_eq. cbv beta iota.
      erewrite bind_ok by done.
      pose proof (handle_duplicate_no_timeout fuel cfg (fs s2) t
                    (get_target_path_wf _ _ _ _ _ _ Et) Hfuel) as Hh.
      destruct (_handle_duplicate fuel cfg (fs s2) t) as [[t'|]|e|] eqn:Eh; [| | |done].
      * erewrite bind_ok by by apply read_fs_eq.
        destruct (dry_run cfg); [done|].
        unfold_m.
        destruct (shutil_move (fs s2) file_path t') as [[[]|e|] fs'] eqn:Em; [done|done|].
        by apply shutil_move_spec in Em as [? _].
      * by erewrite bind_ok by by apply read_fs_eq.
      * erewrite (bind_raise (read_fs _)) by by apply read_fs_eq. done.
    + exists 0. intros fuel _. erewrite bind_ok by by apply read_fs_eq.
      cbv beta iota. by erewrite bind_raise by done.
    + by apply get_target_path_spec in Et as (_ & _ & _ & _ & ? & _).
  - exists 0. intros fuel _. by erewrite bind_raise by by apply read_fs_eq.
  - unfold path_is_dir, sys in Ed. by destruct (fault (fs st) SysIsDir file_path).
Qed.

Lemma organize_file_returns cfg file_path st :
  ∃ n, ∀ fuel, n ≤ fuel → ∃ b st', organize_file fuel cfg file_path st = (Ok b, st').
Proof.
  destruct (organize_file_body_no_timeout cfg file_path st) as (n & Hn).
  exists n. intros fuel Hfuel. specialize (Hn fuel Hfuel).
  unfold organize_file, try_except.
  destruct (organize_file_body fuel cfg file_path st) as [[b|e|] st1]; [|  |done].
  - by exists b, st1.
  - exists false. unfold organize_file_handler. destruct e; by eexists.
Qed.

Lemma organize_files_never_raises fuel cfg files : ∀ st e,
  (organize_files fuel cfg files st).1 ≠ Raise e.
Proof.
  induction files as [|f rest IH]; intros st e; [done|].
  simpl. unfold mbind, M_bind, bind.
  pose proof (organize_file_never_raises fuel cfg f st) as Hf.
  destruct (organize_file fuel cfg f st) as [[b|e'|] st1]; [apply IH | | done].
  by specialize (Hf e').
Qed.

Lemma organize_files_cons_failed fuel cfg file_path rest st e st1 :
  organize_file_body fuel cfg file_path st = (Raise e, st1) →
  organize_files fuel cfg (file_path :: rest) st
  = organize_files fuel cfg rest (record_error file_path e st1).
Proof.
  intros H. simpl. by erewrite bind_ok by by apply organize_file_caught.
Qed.

Lemma error_messages_differ file_path m1 cls m2 :
  error_message file_path (PermissionError m1) ≠ error_message file_path (OtherError cls m2).
Proof.
  unfold error_message, permission_denied_msg, error_organizing_msg.
  rewrite !append_cons. discriminate.
Qed.


(** ** The watcher *)

Lemma process_file_in_flight fuel cfg env1 env2 file_path event_type h :
  str file_path ∈ processing_files h →
  _process_file fuel cfg env1 env2 file_path event_type h = (Ok tt, h).
Proof. intros H. unfold _process_file. by rewrite bool_decide_true. Qed.

Lemma process_file_marks fuel cfg env1 env2 file_path event_type h :
  str file_path ∈ processing_files (_process_file fuel cfg env1 env2 file_path event_type h).2.
Proof.
  unfold _process_file. case_bool_decide as Hin; [done|].
  destruct (try_except _ _ _) as [[[]|e|] o]; simpl; set_solver.
Qed.

Lemma process_file_twice fuel cfg env1 env2 fuel' cfg' env1' env2' file_path ev ev' h :
  _process_file fuel' cfg' env1' env2' file_path ev'
    (_process_file fuel cfg env1 env2 file_path ev h).2
  = (Ok tt, (_process_file fuel cfg env1 env2 file_path ev h).2).
Proof. apply process_file_in_flight, process_file_marks. Qed.

(** Once the started thread has run, an event for the path is taken up
    again. *)
Lemma released_not_in_flight file_path h :
  str file_path ∉ processing_files (remove_from_processing (str file_path) h).
Proof.
  unfold remove_from_processing. simpl.
  rewrite elem_of_difference, elem_of_singleton. by intros [_ ?].
Qed.

Lemma on_created_directory fuel cfg env1 env2 event h :
  ev_is_directory event = true → on_created fuel cfg env1 env2 event h = (Ok tt, h).
Proof. intros H. unfold on_created. by rewrite H. Qed.

Lemma on_moved_directory fuel cfg env1 env2 event h :
  ev_is_directory event = true → on_moved fuel cfg env1 env2 event h = (Ok tt, h).
Proof. intros H. unfold on_moved. by rewrite H. Qed.

Lemma process_file_vanished fuel cfg env1 env2 file_path event_type h :
  str file_path ∉ processing_files h →
  path_exists (env1 (fs (organizer h))) file_path = Ok false →
  _process_file fuel cfg env1 env2 file_path event_type h
  = (Ok tt, rejected file_path (env1 (fs (organizer h))) [] h).
Proof.
  intros Hnew H1. unfold _process_file. rewrite bool_decide_false by done.
  unfold process_file_body, sleep. unfold_m. simpl. rewrite H1. simpl.
  unfold rejected. by rewrite app_nil_r.
Qed.

Lemma process_file_vanished_later fuel cfg env1 env2 file_path event_type h n1 :
  str file_path ∉ processing_files h →
  path_exists (env1 (fs (organizer h))) file_path = Ok true →
  path_stat (env1 (fs (organizer h))) file_path = Ok n1 →
  path_exists (env2 (env1 (fs (organizer h)))) file_path = Ok false →
  _process_file fuel cfg env1 env2 file_path event_type h
  = (Ok tt, rejected file_path (env2 (env1 (fs (organizer h)))) [] h).
Proof.
  intros Hnew H1 H2 H3. unfold _process_file. rewrite bool_decide_false by done.
  unfold process_file_body, sleep. unfold_m. simpl. rewrite H1. simpl. rewrite H2. simpl.
  rewrite H3. simpl. unfold rejected. by rewrite app_nil_r.
Qed.

Lemma process_file_size_changed fuel cfg env1 env2 file_path event_type h n1 n2 :
  str file_path ∉ processing_files h →
  path_exists (env1 (fs (organizer h))) file_path = Ok true →
  path_stat (env1 (fs (organizer h))) file_path = Ok n1 →
  path_exists (env2 (env1 (fs (organizer h)))) file_path = Ok true →
  path_stat (env2 (env1 (fs (organizer h)))) file_path = Ok n2 →
  st_size n1 ≠ st_size n2 →
  _process_file fuel cfg env1 env2 file_path event_type h
  = (Ok tt, rejected file_path (env2 (env1 (fs (organizer h))))
              [still_written_record file_path] h).
Proof.
  intros Hnew H1 H2 H3 H4 Hne. unfold _process_file. rewrite bool_decide_false by done.
  unfold process_file_body, sleep. unfold_m. simpl. rewrite H1. simpl. rewrite H2. simpl.
  rewrite H3. simpl. rewrite H4. simpl. by rewrite bool_decide_false by done.
Qed.

(** For contrast: a file that is there at both tests with the same size is
    handed to [organize_file], once. *)
Lemma process_file_stable fuel cfg env1 env2 file_path event_type h n1 n2 b o' :
  str file_path ∉ processing_files h →
  path_exists (env1 (fs (organizer h))) file_path = Ok true →
  path_stat (env1 (fs (organizer h))) file_path = Ok n1 →
  path_exists (env2 (env1 (fs (organizer h)))) file_path = Ok true →
  path_stat (env2 (env1 (fs (organizer h)))) file_path = Ok n2 →
  st_size n1 = st_size n2 →
  organize_file fuel cfg file_path
    (mkState (env2 (env1 (fs (organizer h)))) (stats (organizer h))
             (log (organizer h) ++ [new_file_record file_path event_type]))
  = (Ok b, o') →
  _process_file fuel cfg env1 env2 file_path event_type h
  = (Ok tt, mkHandler o' ({[str file_path]} ∪ processing_files h)
                      (timers h ++ [str file_path])).
Proof.
  intros Hnew H1 H2 H3 H4 Heq Ho. unfold _process_file. rewrite bool_decide_false by done.
  unfold process_file_body, sleep. unfold mbind, M_bind, bind, mret, M_ret, ret, read_fs,
    logger, try_except at 1. simpl.
  rewrite H1. simpl. rewrite H2. simpl.
  rewrite H3. simpl. rewrite H4. simpl. rewrite bool_decide_true by done. simpl.
  unfold new_file_record in Ho. by rewrite Ho.
Qed.

(** ** The claims about organize_file *)

(** C3 (as the code has it). For a path that is a directory, [organize_file]
    returns [False] at once: nothing is moved and no counter changes, the
    counter of skipped files included. *)
Theorem C3_directory_returns_false fuel cfg file_path st
    (Hdir : path_is_dir (fs st) file_path = Ok true) :
  organize_file fuel cfg file_path st = (Ok false, st).
Proof. by apply organize_file_directory. Qed.

(** C4. When the [try] block of [organize_file] fails on a file, the
    exception is caught: [organize_file] returns [False], the counter of
    errors grows by one, the other two counters stay, and one record is
    logged at level [ERROR], whose text for a [PermissionError] differs from
    the text for any other exception. [organize_file] raises on no input and
    returns once the loop has fuel enough; the loop over the files of a
    directory goes on with the next file and raises on no input either. *)
Theorem C4_failures_are_caught fuel cfg file_path rest st e st1
    (Hfail : organize_file_body fuel cfg file_path st = (Raise e, st1)) :
  organize_file fuel cfg file_path st = (Ok false, record_error file_path e st1)
  ∧ errors (stats (record_error file_path e st1)) = S (errors (stats st))
  ∧ moved (stats (record_error file_path e st1)) = moved (stats st)
  ∧ skipped (stats (record_error file_path e st1)) = skipped (stats st)
  ∧ log (record_error file_path e st1) = log st ++ [mkLog ERROR (error_message file_path e)]
  ∧ (∀ m1 cls m2, error_message file_path (PermissionError m1)
                  ≠ error_message file_path (OtherError cls m2))
  ∧ (∀ fuel' f' st' e', (organize_file fuel' cfg f' st').1 ≠ Raise e')
  ∧ (∃ n, ∀ fuel', n ≤ fuel' → ∃ b st', organize_file fuel' cfg file_path st = (Ok b, st'))
  ∧ organize_files fuel cfg (file_path :: rest) st
    = organize_files fuel cfg rest (record_error file_path e st1)
  ∧ (∀ files st' e', (organize_files fuel cfg files st').1 ≠ Raise e').
Proof.
  pose proof (organize_file_body_raise _ _ _ _ _ _ Hfail) as [Hs Hl].
  split; [by apply organize_file_caught|].
  unfold record_error at 1 2 3 4. simpl. rewrite Hs, Hl.
  do 4 (split; [done|]).
  split; [apply error_messages_differ|].
  split; [intros; apply organize_file_never_raises|].
  split; [apply organize_file_returns|].
  split; [by apply organize_files_cons_failed|].
  intros. apply organize_files_never_raises.
Qed.

(** C5 (as the code has it). For the category ["Extras"] the base folder is
    the parent of the target folder of the first configured category with
    ["Extras"] appended; with no category configured it is the path written
    in the program, [C:\Users\lnloh\Documents\Organized\Extras]. Without date
    folders the destination is the file's name in that folder. *)
Theorem C5_extras_base_folder cfg file_path st :
  let extras :=
    match organize_rules cfg with
    | (_, r) :: _ =>
        let b := parent (Path_of_string (target_folder r)) in
        mkPath (root b) (parts b ++ ["Extras"])
    | [] => Path_of_string "C:\Users\lnloh\Documents\Organized\Extras"
    end in
  base_folder cfg "Extras" st = (Ok extras, st)
  ∧ ∀ target_path st1,
      organize_by_date cfg = false →
      _get_target_path cfg file_path "Extras" st = (Ok target_path, st1) →
      target_path = joinpath extras (name file_path).
Proof.
  intros extras. split; [apply base_folder_extras|].
  intros target_path st1 Hdate H. unfold _get_target_path in H.
  erewrite bind_ok in H by apply base_folder_extras.
  rewrite Hdate in H. erewrite bind_ok in H by done.
  apply bind_inv in H as [(a & s1 & _ & H)|[(e & _ & [=])|(_ & [=])]].
  by injection H as <- _.
Qed.


(** ** The claims about the watcher *)

(** C6. An event for a path that is not in flight is turned down, and
    [organize_file] is not called, when the file is not there after the first
    sleep, when it is not there after the second sleep, and when its size
    after the second sleep differs from its size after the first. The handler
    does not test again: it returns with the path marked and a thread started
    to release it. *)
Theorem C6_unstable_not_forwarded fuel cfg env1 env2 file_path event_type h
    (Hnew : str file_path ∉ processing_files h) :
  let fs1 := env1 (fs (organizer h)) in
  let fs2 := env2 fs1 in
  (path_exists fs1 file_path = Ok false →
     _process_file fuel cfg env1 env2 file_path event_type h
     = (Ok tt, rejected file_path fs1 [] h))
  ∧ (∀ n1, path_exists fs1 file_path = Ok true → path_stat fs1 file_path = Ok n1 →
       path_exists fs2 file_path = Ok false →
       _process_file fuel cfg env1 env2 file_path event_type h
       = (Ok tt, rejected file_path fs2 [] h))
  ∧ (∀ n1 n2, path_exists fs1 file_path = Ok true → path_stat fs1 file_path = Ok n1 →
       path_exists fs2 file_path = Ok true → path_stat fs2 file_path = Ok n2 →
       st_size n1 ≠ st_size n2 →
       _process_file fuel cfg env1 env2 file_path event_type h
       = (Ok tt, rejected file_path fs2 [still_written_record file_path] h)).
Proof.
  intros fs1 fs2. split; [|split].
  - intros H1. by apply process_file_vanished.
  - intros n1 H1 H2 H3. by eapply process_file_vanished_later.
  - intros n1 n2 H1 H2 H3 H4 Hne. by eapply process_file_size_changed.
Qed.

(** C7. An event for a path that is in [processing_files] is dropped: the
    handler is left as it was. Every event that is taken up leaves its path
    in [processing_files], until the started thread discards it; so a second
    event for the same path that comes before that changes nothing, and the
    two events together led to the one decision of the first. *)
Theorem C7_in_flight_event_dropped fuel cfg env1 env2 file_path event_type h :
  (str file_path ∈ processing_files h →
     _process_file fuel cfg env1 env2 file_path event_type h = (Ok tt, h))
  ∧ str file_path
      ∈ processing_files (_process_file fuel cfg env1 env2 file_path event_type h).2
  ∧ ∀ fuel' cfg' env1' env2' event_type',
      _process_file fuel' cfg' env1' env2' file_path event_type'
        (_process_file fuel cfg env1 env2 file_path event_type h).2
      = (Ok tt, (_process_file fuel cfg env1 env2 file_path event_type h).2).
Proof.
  split; [apply process_file_in_flight|]. split; [apply process_file_marks|].
  intros. apply process_file_twice.
Qed.


(** ** Every way through organize_file *)

Lemma falsy_false category :
  falsy category = false → ∃ c, category = Some c ∧ c ≠ EmptyString.
Proof.
  destruct category as [c|]; [|done]. simpl. intros H%bool_decide_eq_false. by exists c.
Qed.

Lemma path_is_dir_no_timeout fs0 p : path_is_dir fs0 p ≠ OutOfFuel.
Proof. unfold path_is_dir, sys. by destruct (fault fs0 SysIsDir p). Qed.

(** The [try] block takes one of the ways of [body_case]. *)
Lemma organize_file_body_cases fuel cfg file_path st r st1 :
  organize_file_body fuel cfg file_path st = (r, st1) →
  body_case fuel cfg file_path st r st1.
Proof.
  unfold organize_file_body. cbv zeta. intros H.
  apply bind_inv in H as [(d & s1 & Hd & H)|[(e & Hd & ->)|(Hd & ->)]];
    apply read_fs_inv in Hd as [-> Hd]; symmetry in Hd.
  2: by apply case_is_dir_raises.
  2: by apply path_is_dir_no_timeout in Hd.
  destruct d.
  { injection H as <- <-. by apply case_directory. }
  destruct (falsy (_get_file_category cfg file_path)) eqn:Ef.
  { injection H as <- <-. by apply case_ignored. }
  destruct (falsy_false _ Ef) as (c & Hc & Hne). rewrite Hc in H. simpl in H.
  apply bind_inv in H as [(t & s2 & Ht & H)|[(e & Ht & ->)|(Ht & ->)]].
  2: by eapply case_target_raises.
  2: by apply get_target_path_spec in Ht as (_ & _ & _ & _ & ? & _).
  apply bind_inv in H as [(t' & s3 & Ht' & H)|[(e & Ht' & ->)|(Ht' & ->)]];
    apply read_fs_inv in Ht' as [-> Ht']; symmetry in Ht'.
  2: by eapply case_duplicate_raises.
  2: by eapply case_out_of_fuel.
  destruct t' as [p|].
  2: { injection H as <- <-. by eapply case_duplicate_skipped. }
  destruct (dry_run cfg) eqn:Edry.
  { injection H as <- <-. by eapply case_dry_run. }
  unfold_m.
  destruct (shutil_move (fs s2) file_path p) as [[[]|e|] fs'] eqn:Em; simpl in H.
  - injection H as <- <-. by eapply case_moved.
  - injection H as <- <-. by eapply case_move_raises.
  - by apply shutil_move_spec in Em as [? _].
Qed.

Lemma path_exists_false fs0 p :
  path_exists fs0 p = Ok false → entries fs0 !! p = None.
Proof.
  unfold path_exists, sys. destruct (fault fs0 SysExists p); [done|].
  intros [= H%bool_decide_eq_false]. by apply eq_None_not_Some.
Qed.

Lemma rename_loop_result fuel fs0 orig : ∀ counter target_path p,
  rename_loop fuel fs0 orig counter target_path = Ok p →
  path_exists fs0 p = Ok false
  ∧ (p = target_path ∨ ∃ k, counter ≤ k ∧ p = candidate orig k).
Proof.
  induction fuel as [|fuel IH]; intros counter target_path p H; [done|].
  simpl in H. destruct (path_exists fs0 target_path) as [[|]|e|] eqn:E; try done.
  - apply IH in H as [Hp [->|(k & Hk & ->)]]; (split; [done|]); right.
    + by exists counter.
    + exists k. split; [lia | done].
  - injection H as <-. split; [done | by left].
Qed.

(** Unless the policy is ["overwrite"], the path that [_handle_duplicate]
    returns is free, whatever [exists()] does on other paths. *)
Lemma handle_duplicate_result_free fuel cfg fs0 target_path p :
  duplicate_handling cfg ≠ Some "overwrite" →
  _handle_duplicate fuel cfg fs0 target_path = Ok (Some p) →
  entries fs0 !! p = None
  ∧ (p = target_path ∨ ∃ k, 1 ≤ k ∧ p = candidate target_path k).
Proof.
  intros Hpol. unfold _handle_duplicate.
  destruct (path_exists fs0 target_path) as [[|]|e|] eqn:E; try done.
  - case_bool_decide as H1; [done|]. case_bool_decide as H2.
    { destruct (duplicate_handling cfg); simpl in H2; congruence. }
    destruct (rename_loop fuel fs0 target_path 1 target_path) as [p'| |] eqn:El; try done.
    intros [= ->]. apply rename_loop_result in El as [Hp Hshape].
    split; [by apply path_exists_false|].
    destruct Hshape as [->|?]; [|by right].
    apply path_exists_false in Hp. unfold path_exists, sys in E.
    destruct (fault fs0 SysExists target_path); [done|].
    injection E as E%bool_decide_eq_true. rewrite Hp in E. by destruct E.
  - intros [= <-]. split; [by apply path_exists_false | by left].
Qed.

Lemma shutil_move_free fs0 src dst r fs' :
  entries fs0 !! dst = None →
  shutil_move fs0 src dst = (r, fs') →
  fault fs' = fault fs0
  ∧ (∀ q n, q ≠ src → entries fs0 !! q = Some n → entries fs' !! q = Some n)
  ∧ (r = Ok tt →
       ∃ n, entries fs0 !! src = Some n ∧ src ≠ dst
            ∧ entries fs' = <[dst := n]> (delete src (entries fs0))).
Proof.
  intros Hdst. unfold shutil_move. rewrite Hdst.
  destruct (fault fs0 SysMove src); [by intros [= <- <-]|].
  destruct (entries fs0 !! src) as [n|] eqn:Hsrc; [|by intros [= <- <-]].
  simpl. intros [= <- <-]. simpl. split; [done|]. split.
  - intros q m Hq Hm. rewrite lookup_insert_ne by congruence.
    by rewrite lookup_delete_ne.
  - intros _. exists n. split; [done|]. split; [congruence | done].
Qed.

Lemma organize_file_cases fuel cfg file_path st r st' :
  organize_file fuel cfg file_path st = (r, st') →
  (∃ b, r = Ok b ∧ body_case fuel cfg file_path st (Ok b) st')
  ∨ (∃ e st1, r = Ok false ∧ body_case fuel cfg file_path st (Raise e) st1
              ∧ st' = record_error file_path e st1)
  ∨ (r = OutOfFuel ∧ body_case fuel cfg file_path st OutOfFuel st').
Proof.
  unfold organize_file, try_except.
  destruct (organize_file_body fuel cfg file_path st) as [[b|e|] st1] eqn:E;
    apply organize_file_body_cases in E.
  - intros [= <- <-]. left. by exists b.
  - intros H. right. left. exists e, st1.
    unfold organize_file_handler in H. destruct e; by injection H as <- <-.
  - intros [= <- <-]. by right; right.
Qed.

(** What is kept by every way through the [try] block, unless the policy is
    ["overwrite"]: the fault oracle and every entry other than the source. *)
Lemma body_case_frame fuel cfg file_path st r st1 :
  duplicate_handling cfg ≠ Some "overwrite" →
  body_case fuel cfg file_path st r st1 →
  fault (fs st1) = fault (fs st)
  ∧ ∀ q n, q ≠ file_path → entries (fs st) !! q = Some n → entries (fs st1) !! q = Some n.
Proof.
  intros Hpol H.
  destruct H as [ | | |c e s2 _ _ _ Ht|c t s2 e _ _ _ Ht _|c t s2 _ _ _ Ht _
                |c t s2 _ _ _ Ht _|c t s2 p _ _ _ Ht _ _|c t s2 p e fs' _ _ _ Ht Hh _ Hm
                |c t s2 p fs' _ _ _ Ht Hh _ Hm];
    try (split; by auto);
    apply get_target_path_spec in Ht as (_ & _ & Hf & Hpres & _);
    try (split; [done | by intros q n _ Hq; apply Hpres]).
  - apply handle_duplicate_result_free in Hh as [Hfree _]; [|done].
    apply shutil_move_free in Hm as (Hf' & Hkeep & _); [|done]. simpl.
    split; [congruence|]. intros q n Hq Hn. apply Hkeep; [done | by apply Hpres].
  - apply handle_duplicate_result_free in Hh as [Hfree _]; [|done].
    apply shutil_move_free in Hm as (Hf' & Hkeep & _); [|done]. simpl.
    split; [congruence|]. intros q n Hq Hn. apply Hkeep; [done | by apply Hpres].
Qed.

(** X2. Unless the policy is ["overwrite"], [organize_file] removes and
    changes no entry of the file system other than the one of the file it is
    given, whatever it returns and whatever fails. *)
Theorem X2_organize_file_keeps_other_entries fuel cfg file_path st :
  duplicate_handling cfg ≠ Some "overwrite" →
  fault (fs (organize_file fuel cfg file_path st).2) = fault (fs st)
  ∧ ∀ q n, q ≠ file_path → entries (fs st) !! q = Some n →
      entries (fs (organize_file fuel cfg file_path st).2) !! q = Some n.
Proof.
  intros Hpol.
  destruct (organize_file fuel cfg file_path st) as [r st'] eqn:E. simpl.
  apply organize_file_cases in E as [(b & _ & H)|[(e & st1 & _ & H & ->)|(_ & H)]];
    by apply body_case_frame in H.
Qed.

Lemma body_case_stats fuel cfg file_path st r st1 :
  body_case fuel cfg file_path st r st1 →
  match r with
  | Ok true => stats st1 = mkStats (S (moved (stats st))) (skipped (stats st)) (errors (stats st))
  | Ok false =>
      (path_is_dir (fs st) file_path = Ok true ∧ st1 = st)
      ∨ (path_is_dir (fs st) file_path = Ok false
         ∧ stats st1
           = mkStats (moved (stats st)) (S (skipped (stats st))) (errors (stats st)))
  | _ => stats st1 = stats st
  end.
Proof.
  intros H.
  destruct H as [Hd|e Hd|Hd Hf|c e s2 Hd _ _ Ht|c t s2 e Hd _ _ Ht _|c t s2 Hd _ _ Ht _
                |c t s2 Hd _ _ Ht _|c t s2 p Hd _ _ Ht _ _|c t s2 p e fs' Hd _ _ Ht Hh _ Hm
                |c t s2 p fs' Hd _ _ Ht Hh _ Hm];
    try (apply get_target_path_spec in Ht as (Hs & _)); simpl; try rewrite Hs; auto.
Qed.

Lemma organize_file_counts fuel cfg file_path st b st' :
  organize_file fuel cfg file_path st = (Ok b, st') →
  moved (stats st') = moved (stats st) + (if b then 1 else 0)
  ∧ skipped (stats st) ≤ skipped (stats st')
  ∧ errors (stats st) ≤ errors (stats st')
  ∧ skipped (stats st') + errors (stats st')
    = skipped (stats st) + errors (stats st)
      + (if b then 0
         else match path_is_dir (fs st) file_path with Ok true => 0 | _ => 1 end).
Proof.
  intros H.
  apply organize_file_cases in H as [(b' & [= <-] & H)|[(e & st1 & [= ->] & H & ->)|([=] & _)]].
  - pose proof H as Hc. apply body_case_stats in H. destruct b.
    + rewrite H. simpl. lia.
    + destruct H as [[Hd ->]|[Hd ->]]; rewrite Hd; simpl; lia.
  - pose proof H as Hs%body_case_stats. simpl in Hs. unfold record_error. simpl.
    rewrite Hs.
    assert (path_is_dir (fs st) file_path ≠ Ok true) as Hnd.
    { intros Hd. inversion H; congruence. }
    destruct (path_is_dir (fs st) file_path) as [[|]|e'|]; try done; lia.
Qed.

(** X5. A file that is classified as ignored, or whose category has the
    empty name, is counted as skipped: [organize_file] returns [False],
    [skipped] grows by one, one DEBUG record is logged, and the file system
    is not touched (no folder is made). *)
Theorem X5_organize_file_ignored fuel cfg file_path st :
  path_is_dir (fs st) file_path = Ok false →
  falsy (_get_file_category cfg file_path) = true →
  organize_file fuel cfg file_path st
  = (Ok false,
     record_skip (mkLog DEBUG ("Skipping ignored file: " +:+ name file_path)) st).
Proof.
  intros Hd Hf. unfold organize_file, try_except, organize_file_body. cbv zeta.
  erewrite bind_ok by by apply read_fs_eq. cbv beta iota. by rewrite Hf.
Qed.

Lemma find_category_lookup ext rules c :
  find_category ext rules = Some c → is_Some (lookup_rule c rules).
Proof.
  induction rules as [|[c' r] rules IH]; [done|]. simpl.
  destruct (Str.in_list ext (extensions r)).
  - intros [= ->]. by rewrite bool_decide_true.
  - intros H. case_bool_decide; [done | by apply IH].
Qed.

Lemma find_category_elem ext rules c :
  find_category ext rules = Some c →
  ∃ r, (c, r) ∈ rules ∧ ext ∈ extensions r.
Proof.
  induction rules as [|[c' r] rules IH]; [done|]. simpl. unfold Str.in_list.
  case_bool_decide as Hin.
  - intros [= ->]. exists r. split; [by left | done].
  - intros (r' & Hr' & He)%IH. exists r'. split; [by right | done].
Qed.

Lemma lookup_rule_NoDup rules c r :
  NoDup rules.*1 → (c, r) ∈ rules → lookup_rule c rules = Some r.
Proof.
  induction rules as [|[c' r'] rules IH]; [by intros _ ?%elem_of_nil|].
  rewrite fmap_cons, NoDup_cons. simpl. intros [Hnotin Hnd] [[= -> ->]|Hin]%elem_of_cons.
  - by rewrite bool_decide_true.
  - rewrite bool_decide_false; [by apply IH|].
    intros ->. apply Hnotin. apply list_elem_of_fmap. by exists (c, r).
Qed.

(** The category of a file is ["Extras"] or a key of [organize_rules]. *)
Lemma get_file_category_configured cfg file_path c :
  _get_file_category cfg file_path = Some c →
  c = "Extras" ∨ is_Some (lookup_rule c (organize_rules cfg)).
Proof.
  unfold _get_file_category. repeat case_match; try done.
  - intros [= <-]. right. by eapply find_category_lookup.
  - intros [= <-]. by left.
Qed.

Lemma base_folder_of_category cfg file_path c st :
  _get_file_category cfg file_path = Some c →
  ∃ p, base_folder cfg c st = (Ok p, st).
Proof.
  intros [->|[r Hr]]%get_file_category_configured.
  - eexists. apply base_folder_extras.
  - unfold base_folder. case_bool_decide as Hc.
    + subst c. eexists. apply base_folder_extras.
    + rewrite Hr. by eexists.
Qed.

(** X3. When [organize_file] returns [True] outside a dry run and the policy
    is not ["overwrite"], the file is at a destination that was free before
    the call: the file's name in the destination folder or one of its
    numbered candidates. The destination is not the source path, it holds
    the entry that the source held, the source path is free, and [moved]
    has grown by one. *)
Theorem X3_organize_file_moved fuel cfg file_path st st' :
  organize_file fuel cfg file_path st = (Ok true, st') →
  dry_run cfg = false →
  duplicate_handling cfg ≠ Some "overwrite" →
  ∃ folder dest n,
    (dest = joinpath folder (name file_path)
     ∨ ∃ k, 1 ≤ k ∧ dest = candidate (joinpath folder (name file_path)) k)
    ∧ dest ≠ file_path
    ∧ entries (fs st) !! dest = None
    ∧ entries (fs st') !! dest = Some n
    ∧ entries (fs st') !! file_path = None
    ∧ (∀ n0, entries (fs st) !! file_path = Some n0 → n0 = n)
    ∧ moved (stats st') = S (moved (stats st)).
Proof.
  intros H Hdry Hpol.
  apply organize_file_cases in H as [(b & [= <-] & H)|[(e & st1 & [=] & _)|([=] & _)]].
  inversion H as [ | | | | | | |c t s2 p _ _ _ Ht _ Hd|
                 |c t s2 p fs' _ _ _ Ht Hh _ Hm]; subst; [congruence|].
  apply handle_duplicate_result_free in Hh as [Hfree Hshape]; [|done].
  apply shutil_move_free in Hm as (_ & _ & Hmv); [|done].
  destruct (Hmv eq_refl) as (n & Hsrc & Hne & Hes).
  apply get_target_path_spec in Ht as (Hst & _ & _ & Hpres & _ & Hfolder).
  destruct (Hfolder t eq_refl) as (folder & Hwf & -> & _).
  exists folder, p, n. simpl. rewrite Hes, Hst.
  split; [done|]. split; [congruence|]. split.
  { destruct (entries (fs st) !! p) as [m|] eqn:Em; [|done].
    apply Hpres in Em. congruence. }
  split; [apply lookup_insert_eq|]. split.
  { rewrite lookup_insert_ne by done. apply lookup_delete_eq. }
  split; [|done]. intros n0 Hn0%Hpres. congruence.
Qed.

(** X6. With the policy ["skip"], a file whose destination exists stays
    where it is: [organize_file] returns [False], [skipped] grows by one and
    one INFO record is logged. The file system is the one that
    [_get_target_path] left, in which every entry that was there before the
    call is still there. *)
Theorem X6_organize_file_skip_duplicate fuel cfg file_path st category target_path s2 :
  duplicate_handling cfg = Some "skip" →
  path_is_dir (fs st) file_path = Ok false →
  _get_file_category cfg file_path = Some category → category ≠ EmptyString →
  _get_target_path cfg file_path category st = (Ok target_path, s2) →
  fault (fs s2) SysExists target_path = None →
  is_Some (entries (fs s2) !! target_path) →
  organize_file fuel cfg file_path st
  = (Ok false, record_skip (mkLog INFO ("Skipping duplicate: " +:+ name file_path)) s2)
  ∧ ∀ q n, entries (fs st) !! q = Some n → entries (fs s2) !! q = Some n.
Proof.
  intros Hpol Hd Hc Hne Ht Hf Hex. split.
  - unfold organize_file, try_except, organize_file_body. cbv zeta.
    erewrite bind_ok by by apply read_fs_eq.
    cbv beta iota. rewrite Hc. unfold falsy. rewrite bool_decide_false by done.
    erewrite bind_ok by done.
    erewrite bind_ok by by apply read_fs_eq, handle_duplicate_skip.
    done.
  - by apply get_target_path_spec in Ht as (_ & _ & _ & ? & _).
Qed.

(** In a dry run no way through the [try] block removes or changes an
    entry. *)
Lemma body_case_dry_frame fuel cfg file_path st r st1 :
  dry_run cfg = true →
  body_case fuel cfg file_path st r st1 →
  ∀ q n, entries (fs st) !! q = Some n → entries (fs st1) !! q = Some n.
Proof.
  intros Hdry H q n Hq.
  destruct H as [Hd|e Hd|Hd Hf|c e s2 Hd _ _ Ht|c t s2 e Hd _ _ Ht _|c t s2 Hd _ _ Ht _
                |c t s2 Hd _ _ Ht _|c t s2 p Hd _ _ Ht _ _|c t s2 p e fs' Hd _ _ Ht Hh Hn Hm
                |c t s2 p fs' Hd _ _ Ht Hh Hn Hm];
    try congruence; try done;
    apply get_target_path_spec in Ht as (_ & _ & _ & Hpres & _); by apply Hpres.
Qed.

Lemma organize_file_dry_frame fuel cfg file_path st :
  dry_run cfg = true →
  ∀ q n, entries (fs st) !! q = Some n →
    entries (fs (organize_file fuel cfg file_path st).2) !! q = Some n.
Proof.
  intros Hdry q n Hq.
  destruct (organize_file fuel cfg file_path st) as [r st'] eqn:E. simpl.
  apply organize_file_cases in E as [(b & _ & H)|[(e & st1 & _ & H & ->)|(_ & H)]];
    by eapply body_case_dry_frame in H.
Qed.

Lemma organize_files_dry_frame fuel cfg files :
  dry_run cfg = true →
  ∀ st q n, entries (fs st) !! q = Some n →
    entries (fs (organize_files fuel cfg files st).2) !! q = Some n.
Proof.
  intros Hdry. induction files as [|f rest IH]; intros st q n Hq; [done|].
  simpl. unfold mbind, M_bind, bind.
  pose proof (organize_file_dry_frame fuel cfg f st Hdry q n Hq) as Hf.
  destruct (organize_file fuel cfg f st) as [[b|e|] s1]; simpl in *; [|done|done].
  by apply IH.
Qed.

Lemma path_stat_ok fs0 p nd : path_stat fs0 p = Ok nd → entries fs0 !! p = Some nd.
Proof.
  unfold path_stat, sys. destruct (fault fs0 SysStat p); [done|].
  by destruct (entries fs0 !! p); intros [= ->].
Qed.

Lemma mkdir_then_return_ok folder file_path st target_path st1 :
  (write_fs (λ fs, path_mkdir fs folder);; mret (joinpath folder (name file_path))) st
  = (Ok target_path, st1) →
  target_path = joinpath folder (name file_path)
  ∧ ∀ i, 0 < i ≤ length (parts folder) →
      is_dir_in (entries (fs st1)) (mkPath (root folder) (take i (parts folder))).
Proof.
  intros H.
  assert (∃ r0 fs', path_mkdir (fs st) folder = (r0, fs')
                    ∧ write_fs (λ fs, path_mkdir fs folder) st
                      = (r0, mkState fs' (stats st) (log st))) as (r0 & fs' & Em & Hw).
  { unfold write_fs. destruct (path_mkdir (fs st) folder) as [r0 fs']. by exists r0, fs'. }
  apply path_mkdir_spec in Em as (_ & _ & _ & Hdirs).
  apply bind_inv in H as [(a & s1 & Ha & Hr)|[(e & Ha & [=])|(Ha & [=])]].
  rewrite Hw in Ha. injection Ha as -> <-. injection Hr as <- <-.
  split; [done|]. simpl. destruct a. by apply Hdirs.
Qed.

(** X8. With [organize_by_date], the destination that [_get_target_path]
    returns is the file's name in the folder named after the time of the
    file's last change (formatted with [date_format]) under the category's
    folder, and that folder and all its ancestors are directories
    afterwards. *)
Theorem X8_get_target_path_dated cfg file_path category st target_path s2 :
  organize_by_date cfg = true →
  _get_target_path cfg file_path category st = (Ok target_path, s2) →
  ∃ base nd,
    base_folder cfg category st = (Ok base, st)
    ∧ entries (fs st) !! file_path = Some nd
    ∧ let dated := joinpath base (strftime (date_format cfg) (st_mtime nd)) in
      target_path = joinpath dated (name file_path)
      ∧ ∀ i, 0 < i ≤ length (parts dated) →
          is_dir_in (entries (fs s2)) (mkPath (root dated) (take i (parts dated))).
Proof.
  intros Hdate H. unfold _get_target_path in H. rewrite Hdate in H.
  apply bind_inv in H as [(base & s1 & Hb & H)|[(e & _ & [=])|(_ & [=])]].
  pose proof Hb as [-> _]%base_folder_state.
  apply bind_inv in H as [(folder & s3 & Hfo & H)|[(e & _ & [=])|(_ & [=])]].
  apply bind_inv in Hfo as [(nd & s4 & Hs & [= <- <-])|[(e & _ & [=])|(_ & [=])]].
  apply read_fs_inv in Hs as [-> Hs]. symmetry in Hs. apply path_stat_ok in Hs.
  exists base, nd. split; [done|]. split; [done|].
  exact (mkdir_then_return_ok _ _ _ _ _ H).
Qed.

(** X9. With [organize_by_date], a file that is not there is found out by
    [stat()] before any folder is made: [organize_file] returns [False],
    [errors] grows by one, and the file system is left as it was. *)
Theorem X9_organize_file_dated_missing fuel cfg file_path st :
  organize_by_date cfg = true →
  path_is_dir (fs st) file_path = Ok false →
  falsy (_get_file_category cfg file_path) = false →
  fault (fs st) SysStat file_path = None →
  entries (fs st) !! file_path = None →
  organize_file fuel cfg file_path st
  = (Ok false,
     record_error file_path (OtherError "FileNotFoundError" (str file_path)) st).
Proof.
  intros Hdate Hd Hf Hfault Hmiss.
  destruct (falsy_false _ Hf) as (c & Hc & Hne).
  destruct (base_folder_of_category cfg file_path c st Hc) as (base & Hb).
  apply organize_file_caught.
  unfold organize_file_body. cbv zeta.
  erewrite bind_ok by by apply read_fs_eq.
  cbv beta iota. rewrite Hf, Hc. simpl default.
  erewrite bind_raise; [done|].
  unfold _get_target_path. erewrite bind_ok by done. rewrite Hdate.
  erewrite bind_raise; [done|].
  erewrite bind_raise; [done|].
  apply read_fs_eq. unfold path_stat, sys. by rewrite Hfault, Hmiss.
Qed.

(** X10. A file whose category is not ["Extras"] goes to the
    [target_folder] of a rule of that name which lists the file's lower-cased
    suffix, when the names of the rules are distinct, as the keys of a dict
    are. *)
Theorem X10_base_folder_matching_rule cfg file_path category st :
  NoDup (organize_rules cfg).*1 →
  _get_file_category cfg file_path = Some category →
  category ≠ "Extras" →
  ∃ r, (category, r) ∈ organize_rules cfg
       ∧ Str.lower (suffix file_path) ∈ extensions r
       ∧ base_folder cfg category st = (Ok (Path_of_string (target_folder r)), st).
Proof.
  intros Hnd Hc Hne. unfold _get_file_category in Hc.
  repeat case_match; try done; simplify_eq.
  match goal with H : find_category _ _ = Some _ |- _ =>
    apply find_category_elem in H as (r & Hin & Hext) end.
  exists r. split; [done|]. split; [done|].
  unfold base_folder. rewrite bool_decide_false by done.
  by rewrite (lookup_rule_NoDup _ _ r).
Qed.

(** ** Fuel *)

Lemma rename_loop_fuel_mono fuel : ∀ fuel' fs0 orig counter target_path r,
  rename_loop fuel fs0 orig counter target_path = r → r ≠ OutOfFuel → fuel ≤ fuel' →
  rename_loop fuel' fs0 orig counter target_path = r.
Proof.
  induction fuel as [|fuel IH]; intros fuel' fs0 orig counter t r H Hr Hle.
  - simpl in H. congruence.
  - destruct fuel' as [|fuel']; [lia|]. simpl in *.
    destruct (path_exists fs0 t) as [[|]|e|]; try done.
    apply IH; [done | done | lia].
Qed.

Lemma handle_duplicate_fuel_mono fuel fuel' cfg fs0 target_path r :
  _handle_duplicate fuel cfg fs0 target_path = r → r ≠ OutOfFuel → fuel ≤ fuel' →
  _handle_duplicate fuel' cfg fs0 target_path = r.
Proof.
  unfold _handle_duplicate. intros H Hr Hle.
  destruct (path_exists fs0 target_path) as [[|]|e|]; try done.
  repeat case_bool_decide; try done.
  destruct (rename_loop fuel fs0 target_path 1 target_path) as [p|e|] eqn:El.
  - by rewrite (rename_loop_fuel_mono fuel fuel' _ _ _ _ _ El).
  - by rewrite (rename_loop_fuel_mono fuel fuel' _ _ _ _ _ El).
  - congruence.
Qed.

Lemma body_case_fuel_mono fuel fuel' cfg file_path st r st1 :
  body_case fuel cfg file_path st r st1 → r ≠ OutOfFuel → fuel ≤ fuel' →
  body_case fuel' cfg file_path st r st1.
Proof.
  intros H Hr Hle.
  destruct H as [Hd|e Hd|Hd Hf|c e s2 Hd Hc Hne Ht|c t s2 e Hd Hc Hne Ht Hh
                |c t s2 Hd Hc Hne Ht Hh|c t s2 Hd Hc Hne Ht Hh
                |c t s2 p Hd Hc Hne Ht Hh Hdry|c t s2 p e fs' Hd Hc Hne Ht Hh Hdry Hm
                |c t s2 p fs' Hd Hc Hne Ht Hh Hdry Hm];
    try done;
    try (apply (handle_duplicate_fuel_mono fuel fuel') in Hh; [|done|done]).
  - by apply case_directory.
  - by apply case_is_dir_raises.
  - by apply case_ignored.
  - by eapply case_target_raises.
  - by eapply case_duplicate_raises.
  - by eapply case_duplicate_skipped.
  - by eapply case_dry_run.
  - by eapply case_move_raises.
  - by eapply case_moved.
Qed.

(** Each way of [body_case] is a run of the [try] block. *)
Lemma body_case_sound fuel cfg file_path st r st1 :
  body_case fuel cfg file_path st r st1 →
  organize_file_body fuel cfg file_path st = (r, st1).
Proof.
  intros H. unfold organize_file_body. cbv zeta.
  destruct H as [Hd|e Hd|Hd Hf|c e s2 Hd Hc Hne Ht|c t s2 e Hd Hc Hne Ht Hh
                |c t s2 Hd Hc Hne Ht Hh|c t s2 Hd Hc Hne Ht Hh
                |c t s2 p Hd Hc Hne Ht Hh Hdry|c t s2 p e fs' Hd Hc Hne Ht Hh Hdry Hm
                |c t s2 p fs' Hd Hc Hne Ht Hh Hdry Hm].
  1: by erewrite bind_ok by by apply read_fs_eq.
  1: by erewrite bind_raise by by apply read_fs_eq.
  1: { erewrite bind_ok by by apply read_fs_eq. cbv beta iota. by rewrite Hf. }
  all: erewrite bind_ok by by apply read_fs_eq.
  all: cbv beta iota; rewrite Hc; unfold falsy; rewrite bool_decide_false by done.
  1: by erewrite bind_raise by done.
  all: erewrite bind_ok by done.
  1: by erewrite bind_raise by by apply read_fs_eq.
  1: { unfold mbind, M_bind, bind, read_fs. by rewrite Hh. }
  all: erewrite bind_ok by by apply read_fs_eq.
  1: done.
  all: rewrite Hdry.
  1: done.
  all: unfold_m; by rewrite Hm.
Qed.

Lemma organize_file_fuel_mono fuel fuel' cfg file_path st b st' :
  organize_file fuel cfg file_path st = (Ok b, st') → fuel ≤ fuel' →
  organize_file fuel' cfg file_path st = (Ok b, st').
Proof.
  intros H Hle.
  apply organize_file_cases in H as [(b' & [= <-] & H)|[(e & st1 & [= ->] & H & ->)|([=] & _)]].
  - apply (body_case_fuel_mono fuel fuel') in H; [|done|done].
    apply body_case_sound in H. unfold organize_file, try_except. by rewrite H.
  - apply (body_case_fuel_mono fuel fuel') in H; [|done|done].
    apply body_case_sound in H. by apply organize_file_caught.
Qed.

Lemma organize_files_fuel_mono fuel fuel' cfg files : ∀ st st',
  organize_files fuel cfg files st = (Ok tt, st') → fuel ≤ fuel' →
  organize_files fuel' cfg files st = (Ok tt, st').
Proof.
  induction files as [|f rest IH]; intros st st' H Hle; [done|].
  simpl in *.
  apply bind_inv in H as [(b & s1 & Hf & H)|[(e & _ & [=])|(_ & [=])]].
  erewrite bind_ok by by eapply organize_file_fuel_mono.
  by apply IH.
Qed.

(** The loop over the files comes to its end with enough fuel, and what it
    leaves does not depend on how much more fuel there is. *)
Lemma organize_files_returns cfg files : ∀ st,
  ∃ n st', ∀ fuel, n ≤ fuel → organize_files fuel cfg files st = (Ok tt, st').
Proof.
  induction files as [|f rest IH]; intros st.
  - by exists 0, st.
  - destruct (organize_file_returns cfg f st) as (n1 & Hn1).
    destruct (Hn1 n1 (le_n _)) as (b & s1 & Hf).
    destruct (IH s1) as (n2 & st' & Hn2).
    exists (n1 `max` n2), st'. intros fuel Hfuel. simpl.
    erewrite bind_ok by (eapply organize_file_fuel_mono; [done | lia]).
    apply Hn2. lia.
Qed.

(** X11. Over the loop of [organize_directory], no counter goes down, and a
    loop over [n] paths adds at most [n] to the sum of the three
    counters. *)
Theorem X11_organize_files_counts fuel cfg files : ∀ st st',
  organize_files fuel cfg files st = (Ok tt, st') →
  moved (stats st) ≤ moved (stats st')
  ∧ skipped (stats st) ≤ skipped (stats st')
  ∧ errors (stats st) ≤ errors (stats st')
  ∧ moved (stats st') + skipped (stats st') + errors (stats st')
    ≤ moved (stats st) + skipped (stats st) + errors (stats st) + length files.
Proof.
  induction files as [|f rest IH]; intros st st' H.
  - injection H as <-. simpl. lia.
  - simpl in H.
    apply bind_inv in H as [(b & s1 & Hf & H)|[(e & _ & [=])|(_ & [=])]].
    apply organize_file_counts in Hf as (Hm & Hs & He & Hsum).
    apply IH in H as (Hm' & Hs' & He' & Hsum'). simpl.
    destruct b; [|destruct (path_is_dir (fs st) f) as [[|]| |]]; lia.
Qed.

(** ** organize_directory, run and main *)

Example rule_line_length : String.length rule_line = 60.
Proof. reflexivity. Qed.

Lemma logger_eq l msg st :
  logger l msg st = (Ok tt, mkState (fs st) (stats st) (log st ++ [mkLog l msg])).
Proof. reflexivity. Qed.

(** X13. A path that does not exist, or that exists and is no directory,
    is reported in one ERROR record; [organize_directory] returns without
    looking at what the enumeration would yield, and the file system and the
    counters stay. *)
Theorem X13_organize_directory_rejected fuel rc directory st :
  (path_exists (fs st) (Path_of_string directory) = Ok false →
     organize_directory fuel rc directory st
     = (Ok tt, mkState (fs st) (stats st)
                 (log st ++ [mkLog ERROR ("Directory does not exist: " +:+ directory)])))
  ∧ (path_exists (fs st) (Path_of_string directory) = Ok true →
     path_is_dir (fs st) (Path_of_string directory) = Ok false →
     organize_directory fuel rc directory st
     = (Ok tt, mkState (fs st) (stats st)
                 (log st ++ [mkLog ERROR ("Not a directory: " +:+ directory)]))).
Proof.
  unfold organize_directory. cbv zeta. split.
  - intros He. by erewrite bind_ok by by apply read_fs_eq.
  - intros He Hd. erewrite bind_ok by by apply read_fs_eq. unfold negb. cbv beta iota.
    by erewrite bind_ok by by apply read_fs_eq.
Qed.

(** X14. [organize_directory] raises only what one of its two tests or the
    enumeration raises, and then no file was organized: the file system and
    the counters are as before. *)
Theorem X14_organize_directory_raise fuel rc directory st e st' :
  organize_directory fuel rc directory st = (Raise e, st') →
  (path_exists (fs st) (Path_of_string directory) = Raise e
   ∨ path_is_dir (fs st) (Path_of_string directory) = Raise e
   ∨ list_files (recursive rc) (fs st) (Path_of_string directory) = Raise e)
  ∧ fs st' = fs st ∧ stats st' = stats st.
Proof.
  unfold organize_directory. cbv zeta. intros H.
  apply bind_inv in H as [(ex & s1 & Hex & H)|[(e1 & Hex & [= ->])|(_ & [=])]];
    apply read_fs_inv in Hex as [-> Hex]; [|by split; [left|]].
  destruct ex; simpl in H; [|done].
  apply bind_inv in H as [(d & s1 & Hd & H)|[(e1 & Hd & [= ->])|(_ & [=])]];
    apply read_fs_inv in Hd as [-> Hd]; [|by split; [right; left|]].
  destruct d; simpl in H; [|done].
  apply bind_inv in H as [([] & s1 & [= <-] & H)|[(e1 & [=] & _)|(_ & [=])]].
  apply bind_inv in H as [(files & s2 & Hl & H)|[(e1 & Hl & [= ->])|(_ & [=])]];
    apply read_fs_inv in Hl as [-> Hl].
  - apply bind_inv in H as [([] & s3 & [= <-] & H)|[(e1 & [=] & _)|(_ & [=])]].
    by apply (f_equal fst), organize_files_never_raises in H.
  - split; [by right; right|]. done.
Qed.

Lemma organize_directory_raises_first fuel rc directory st e :
  path_exists (fs st) (Path_of_string directory) = Raise e →
  organize_directory fuel rc directory st = (Raise e, st).
Proof.
  intros H. unfold organize_directory. cbv zeta.
  by erewrite bind_raise by by apply read_fs_eq.
Qed.

(** X15. [run] does not catch: when the test of the first watch directory
    raises, [run] raises the same exception after its three opening
    records; the directories after it are not organized and no summary is
    logged. *)
Theorem X15_run_aborted fuel rc directory rest st e :
  watch_directories rc = directory :: rest →
  path_exists (fs st) (Path_of_string directory) = Raise e →
  run fuel rc st
  = (Raise e, mkState (fs st) (stats st) (log st ++ start_records)).
Proof.
  intros Hw He. unfold run. rewrite Hw.
  erewrite bind_ok by reflexivity.
  erewrite bind_raise; [done|]. simpl.
  erewrite bind_raise; [done|]. by apply organize_directory_raises_first.
Qed.

(** Without watch directories [run] logs its three opening records and a
    warning; there is no summary. *)
Lemma run_no_directories fuel rc st :
  watch_directories rc = [] →
  run fuel rc st
  = (Ok tt, mkState (fs st) (stats st)
              (log st ++ start_records
                 ++ [mkLog WARNING "No watch directories configured!"])).
Proof.
  intros Hw. unfold run. rewrite Hw. erewrite bind_ok by reflexivity.
  rewrite logger_eq. simpl. by rewrite <- app_assoc.
Qed.

(** X16. When [run] returns after organizing its watch directories, the
    log ends with the six records of the summary, which show the counters
    as they are at the end, and the summary changes neither the file system
    nor the counters. *)
Theorem X16_run_summary fuel rc st st' :
  watch_directories rc ≠ [] →
  run fuel rc st = (Ok tt, st') →
  ∃ s1,
    organize_directories fuel rc (watch_directories rc)
      (mkState (fs st) (stats st) (log st ++ start_records)) = (Ok tt, s1)
    ∧ fs st' = fs s1 ∧ stats st' = stats s1
    ∧ log st' = log s1 ++ summary_records (stats st').
Proof.
  intros Hw H. unfold run in H.
  apply bind_inv in H as [([] & s0 & [= <-] & H)|[(e1 & [=] & _)|(_ & [=])]].
  destruct (watch_directories rc) as [|d rest] eqn:E; [done|].
  apply bind_inv in H as [([] & s1 & Hl & [= <-])|[(e1 & _ & [=])|(_ & [=])]].
  by exists s1.
Qed.

Lemma keeps_bind {A B} (m : M A) (f : A → M B) :
  keeps_entries m → (∀ a, keeps_entries (f a)) → keeps_entries (m ≫= f).
Proof.
  intros Hm Hf st q n Hq. unfold mbind, M_bind, bind.
  specialize (Hm st q n Hq).
  destruct (m st) as [[a|e|] s1]; simpl in *; [by apply Hf | done | done].
Qed.

Lemma keeps_same_fs {A} (m : M A) :
  (∀ st, fs (m st).2 = fs st) → keeps_entries m.
Proof. intros H st q n Hq. by rewrite H. Qed.

Lemma keeps_organize_files fuel cfg files :
  dry_run cfg = true → keeps_entries (organize_files fuel cfg files).
Proof. intros Hdry st q n. by apply organize_files_dry_frame. Qed.

Lemma keeps_organize_directory fuel rc directory :
  dry_run (config rc) = true → keeps_entries (organize_directory fuel rc directory).
Proof.
  intros Hdry. unfold organize_directory. cbv zeta.
  apply keeps_bind; [by apply keeps_same_fs|]. intros e.
  destruct e; simpl; [|by apply keeps_same_fs].
  apply keeps_bind; [by apply keeps_same_fs|]. intros d.
  destruct d; simpl; [|by apply keeps_same_fs].
  apply keeps_bind; [by apply keeps_same_fs|]. intros _.
  apply keeps_bind; [by apply keeps_same_fs|]. intros files.
  apply keeps_bind; [by apply keeps_same_fs|]. intros _.
  by apply keeps_organize_files.
Qed.

Lemma keeps_organize_directories fuel rc dirs :
  dry_run (config rc) = true → keeps_entries (organize_directories fuel rc dirs).
Proof.
  intros Hdry. induction dirs as [|d rest IH]; [by apply keeps_same_fs|].
  simpl. apply keeps_bind; [by apply keeps_organize_directory | done].
Qed.

Lemma keeps_run fuel rc :
  dry_run (config rc) = true → keeps_entries (run fuel rc).
Proof.
  intros Hdry. unfold run.
  apply keeps_bind; [by apply keeps_same_fs|]. intros _.
  destruct (watch_directories rc) as [|d rest] eqn:E; [by apply keeps_same_fs|].
  apply keeps_bind; [by apply keeps_organize_directories|]. intros _.
  by apply keeps_same_fs.
Qed.

(** X7. A dry run, asked for on the command line ([--dry-run]) or in the
    configuration, removes and changes no entry of the file system, over all
    watch directories, whatever the enumeration yields and whatever
    fails. *)
Theorem X7_dry_run_keeps_entries fuel args rc :
  arg_dry_run args = true ∨ dry_run (config rc) = true →
  keeps_entries (main fuel args rc).
Proof.
  intros H. unfold main. cbv zeta.
  destruct (arg_show_config args); [by apply keeps_same_fs|].
  destruct (arg_dry_run args); [by apply keeps_run|].
  destruct H as [?|H]; [done | by apply keeps_run].
Qed.

(** ** More on the watcher *)

Lemma process_file_never_raises fuel cfg env1 env2 file_path event_type h e :
  (_process_file fuel cfg env1 env2 file_path event_type h).1 ≠ Raise e.
Proof.
  unfold _process_file. case_bool_decide; [done|].
  unfold try_except.
  destruct (process_file_body fuel cfg env1 env2 file_path event_type (organizer h))
    as [[[]|e'|] o]; done.
Qed.

(** With enough fuel [_process_file] returns. *)
Lemma process_file_returns cfg env1 env2 file_path event_type h :
  ∃ n, ∀ fuel, n ≤ fuel →
    (_process_file fuel cfg env1 env2 file_path event_type h).1 = Ok tt.
Proof.
  destruct (organize_file_returns cfg file_path
              (mkState (env2 (env1 (fs (organizer h)))) (stats (organizer h))
                 (log (organizer h) ++ [new_file_record file_path event_type])))
    as (n & Hn).
  exists n. intros fuel Hfuel. destruct (Hn fuel Hfuel) as (b & o' & Ho).
  unfold _process_file. case_bool_decide; [done|].
  unfold process_file_body, sleep.
  unfold mbind, M_bind, bind, mret, M_ret, ret, read_fs, logger, try_except at 1.
  simpl.
  destruct (path_exists (env1 (fs (organizer h))) file_path) as [[|]|e|] eqn:Ee1;
    try done.
  2: { unfold path_exists, sys in Ee1. repeat case_match; done. }
  simpl.
  destruct (path_stat (env1 (fs (organizer h))) file_path) as [n1|e|] eqn:Es1; simpl;
    [|done|].
  2: { unfold path_stat, sys in Es1. repeat case_match; done. }
  destruct (path_exists (env2 (env1 (fs (organizer h)))) file_path) as [[|]|e|] eqn:Ee2;
    simpl; try done.
  2: { unfold path_exists, sys in Ee2. repeat case_match; done. }
  destruct (path_stat (env2 (env1 (fs (organizer h)))) file_path) as [n2|e|] eqn:Es2;
    simpl; [|done|].
  2: { unfold path_stat, sys in Es2. repeat case_match; done. }
  case_bool_decide; simpl; [|done].
  unfold new_file_record in Ho. by rewrite Ho.
Qed.

(** X18. An exception raised by one of the four tests of [_process_file]
    ([exists()], [stat()], and both again after the second sleep) is caught
    and logged in one ERROR record; [organize_file] is not called, the
    counters stay, the path is marked and one release thread is
    started. *)
Theorem X18_process_file_probe_error fuel cfg env1 env2 file_path event_type h e :
  str file_path ∉ processing_files h →
  let fs1 := env1 (fs (organizer h)) in
  let fs2 := env2 fs1 in
  (path_exists fs1 file_path = Raise e →
     _process_file fuel cfg env1 env2 file_path event_type h
     = (Ok tt, rejected file_path fs1 [probe_error_record file_path e] h))
  ∧ (path_exists fs1 file_path = Ok true → path_stat fs1 file_path = Raise e →
     _process_file fuel cfg env1 env2 file_path event_type h
     = (Ok tt, rejected file_path fs1 [probe_error_record file_path e] h))
  ∧ (∀ n1, path_exists fs1 file_path = Ok true → path_stat fs1 file_path = Ok n1 →
     path_exists fs2 file_path = Raise e →
     _process_file fuel cfg env1 env2 file_path event_type h
     = (Ok tt, rejected file_path fs2 [probe_error_record file_path e] h))
  ∧ (∀ n1, path_exists fs1 file_path = Ok true → path_stat fs1 file_path = Ok n1 →
     path_exists fs2 file_path = Ok true → path_stat fs2 file_path = Raise e →
     _process_file fuel cfg env1 env2 file_path event_type h
     = (Ok tt, rejected file_path fs2 [probe_error_record file_path e] h)).
Proof.
  intros Hnew. cbv zeta.
  repeat split.
  - intros H1. unfold _process_file. rewrite bool_decide_false by done.
    unfold process_file_body, sleep. unfold_m. simpl. by rewrite H1.
  - intros H1 H2. unfold _process_file. rewrite bool_decide_false by done.
    unfold process_file_body, sleep. unfold_m. simpl. rewrite H1. simpl. by rewrite H2.
  - intros n1 H1 H2 H3. unfold _process_file. rewrite bool_decide_false by done.
    unfold process_file_body, sleep. unfold_m. simpl. rewrite H1. simpl. rewrite H2.
    simpl. by rewrite H3.
  - intros n1 H1 H2 H3 H4. unfold _process_file. rewrite bool_decide_false by done.
    unfold process_file_body, sleep. unfold_m. simpl. rewrite H1. simpl. rewrite H2.
    simpl. rewrite H3. simpl. by rewrite H4.
Qed.

Lemma remove_first_snoc path l : path ∉ l → remove_first path (l ++ [path]) = l.
Proof.
  induction l as [|x l IH]; intros Hl; simpl.
  - by rewrite bool_decide_true.
  - apply not_elem_of_cons in Hl as [Hx Hl].
    rewrite bool_decide_false by congruence. by rewrite IH.
Qed.

Lemma discard_added (x : string) (P : gset string) : x ∉ P → ({[x]} ∪ P) ∖ {[x]} = P.
Proof.
  intros Hx. apply set_eq. intros y.
  rewrite elem_of_difference, elem_of_union, elem_of_singleton.
  split.
  - by intros [[Hy|Hy] Hn].
  - intros Hy. split; [by right|]. by intros ->.
Qed.

(** X19. An event that was taken up, followed by the end of the thread it
    started, leaves [processing_files] and the started threads as they were
    before the event, so the next event for the path is taken up again; the
    release does not touch the organizer. *)
Theorem X19_release_after_event fuel cfg env1 env2 file_path event_type h :
  str file_path ∉ processing_files h →
  str file_path ∉ timers h →
  (_process_file fuel cfg env1 env2 file_path event_type h).1 ≠ OutOfFuel →
  let h1 := (_process_file fuel cfg env1 env2 file_path event_type h).2 in
  processing_files (remove_from_processing (str file_path) h1) = processing_files h
  ∧ timers (remove_from_processing (str file_path) h1) = timers h
  ∧ organizer (remove_from_processing (str file_path) h1) = organizer h1.
Proof.
  intros Hnew Ht. unfold _process_file. rewrite bool_decide_false by done.
  destruct (try_except _ _ _) as [[[]|e|] o]; simpl; intros Hr; try done.
  - split; [by apply discard_added|]. split; [by apply remove_first_snoc | done].
  - split; [by apply discard_added|]. split; [by apply remove_first_snoc | done].
Qed.

(** ** FileWatcher.start *)

Lemma start_loop_cons d rest observers st e :
  path_exists (fs st) (Path_of_string d) = Ok e →
  start_loop (d :: rest) observers st
  = if e
    then start_loop rest (observers ++ [str (Path_of_string d)])
           (mkState (fs st) (stats st)
              (log st ++ [mkLog INFO ("Watching directory: " +:+ d)]))
    else start_loop rest observers
           (mkState (fs st) (stats st)
              (log st ++ [mkLog WARNING ("Directory does not exist: " +:+ d)])).
Proof.
  intros H. simpl. erewrite bind_ok by by apply read_fs_eq.
  destruct e; reflexivity.
Qed.

Lemma start_loop_spec dirs : ∀ observers st,
  (∀ p, fault (fs st) SysExists p = None) →
  ∃ st', start_loop dirs observers st
         = (Ok (observers ++ existing_directories (fs st) dirs), st')
         ∧ fs st' = fs st ∧ stats st' = stats st.
Proof.
  induction dirs as [|d rest IH]; intros observers st Hf.
  - exists st. unfold existing_directories. simpl. by rewrite app_nil_r.
  - rewrite (start_loop_cons _ _ _ _ _ (path_exists_ok _ _ (Hf _))).
    unfold existing_directories. rewrite filter_cons.
    destruct (decide (is_Some (entries (fs st) !! Path_of_string d))) as [Hd|Hd].
    + rewrite bool_decide_true by done.
      destruct (IH (observers ++ [str (Path_of_string d)])
                  (mkState (fs st) (stats st)
                     (log st ++ [mkLog INFO ("Watching directory: " +:+ d)])) Hf)
        as (st' & Hrun & Hfs & Hst).
      exists st'. rewrite Hrun. unfold existing_directories. simpl.
      by rewrite <- app_assoc.
    + rewrite bool_decide_false by done.
      destruct (IH observers
                  (mkState (fs st) (stats st)
                     (log st ++ [mkLog WARNING ("Directory does not exist: " +:+ d)])) Hf)
        as (st' & Hrun & Hfs & Hst).
      exists st'. by rewrite Hrun.
Qed.

(** X20. When [exists()] does not fail, [FileWatcher.start] schedules one
    observer for each configured directory that exists, in the configured
    order, and leaves with [sys.exit(1)] when no directory is configured or
    none exists; it changes neither the file system nor the counters. *)
Theorem X20_start_watches_existing rc st :
  (∀ p, fault (fs st) SysExists p = None) →
  ∃ st', start rc st
         = (Ok match existing_directories (fs st) (watch_directories rc) with
               | [] => SysExit 1
               | observers => Watching observers
               end, st')
         ∧ fs st' = fs st ∧ stats st' = stats st.
Proof.
  intros Hf. unfold start.
  destruct (watch_directories rc) as [|d rest] eqn:E.
  - eexists. split; [reflexivity | done].
  - destruct (start_loop_spec (d :: rest) [] st Hf) as (s1 & Hrun & Hfs & Hst).
    erewrite bind_ok by done. simpl app.
    destruct (existing_directories (fs st) (d :: rest)) as [|o os].
    + eexists. split; [reflexivity|]. by simpl.
    + eexists. split; [reflexivity|]. by simpl.
Qed.

(** ** Statements for [_handle_duplicate], the counters and the watcher *)

(** X1. Unless the policy is ["overwrite"], a path that [_handle_duplicate]
    returns is free in the file system, and it is the target itself or one
    of its numbered candidates [stem_k + suffix] with [k >= 1]; this holds
    whatever [exists()] does on other paths. *)
Theorem X1_handle_duplicate_free fuel cfg fs0 target_path p :
  duplicate_handling cfg ≠ Some "overwrite" →
  _handle_duplicate fuel cfg fs0 target_path = Ok (Some p) →
  entries fs0 !! p = None
  ∧ (p = target_path ∨ ∃ k, 1 ≤ k ∧ p = candidate target_path k).
Proof. apply handle_duplicate_result_free. Qed.

(** X4. Each call of [organize_file] that returns counts the file exactly
    once, except for a directory, which no counter counts: [moved] grows by
    one exactly when the result is [True]; when it is [False], one of
    [skipped] and [errors] grows by one and the other stays, unless the path
    is a directory, and then both stay. *)
Theorem X4_organize_file_counts fuel cfg file_path st b st' :
  organize_file fuel cfg file_path st = (Ok b, st') →
  moved (stats st') = moved (stats st) + (if b then 1 else 0)
  ∧ skipped (stats st) ≤ skipped (stats st')
  ∧ errors (stats st) ≤ errors (stats st')
  ∧ skipped (stats st') + errors (stats st')
    = skipped (stats st) + errors (stats st)
      + (if b then 0
         else match path_is_dir (fs st) file_path with Ok true => 0 | _ => 1 end).
Proof. apply organize_file_counts. Qed.

(** X17. [_process_file] never raises, whatever the other programs do to
    the file system during its two sleeps and whatever fails, and with
    enough fuel it returns. *)
Theorem X17_process_file_total cfg env1 env2 file_path event_type h :
  (∀ fuel e, (_process_file fuel cfg env1 env2 file_path event_type h).1 ≠ Raise e)
  ∧ ∃ n, ∀ fuel, n ≤ fuel →
      (_process_file fuel cfg env1 env2 file_path event_type h).1 = Ok tt.
Proof.
  split.
  - intros fuel e. apply process_file_never_raises.
  - apply process_file_returns.
Qed.

(** X12. The loop over the files of [organize_directory] comes to its end
    without raising, for every list of paths and every state: with enough
    fuel it returns, and what it leaves does not depend on how much more
    fuel there is. *)
Theorem X12_organize_files_terminate cfg files st :
  ∃ n st', ∀ fuel, n ≤ fuel → organize_files fuel cfg files st = (Ok tt, st').
Proof. apply organize_files_returns. Qed.

(** ** Termination of [run] and [main] *)

Lemma organize_directory_returns rc directory st :
  (∀ b fs0 p, list_files b fs0 p ≠ OutOfFuel) →
  ∃ n r st', r ≠ OutOfFuel
    ∧ ∀ fuel, n ≤ fuel → organize_directory fuel rc directory st = (r, st').
Proof.
  intros Hl. unfold organize_directory. cbv zeta.
  destruct (path_exists (fs st) (Path_of_string directory)) as [[|]|e|] eqn:E1.
  - destruct (path_is_dir (fs st) (Path_of_string directory)) as [[|]|e|] eqn:E2.
    + destruct (list_files (recursive rc) (fs st) (Path_of_string directory))
        as [files|e|] eqn:E3.
      * destruct (organize_files_returns (config rc) files
                    (mkState (fs st) (stats st)
                       ((log st ++ [mkLog INFO ("Organizing directory: " +:+ directory)])
                          ++ [mkLog INFO ("Found " +:+ Str.of_nat (length files)
                                          +:+ " files to process")])))
          as (n & st' & Hn).
        exists n, (Ok tt), st'. split; [done|]. intros fuel Hf.
        erewrite bind_ok by by apply read_fs_eq. unfold negb. cbv beta iota.
        erewrite bind_ok by by apply read_fs_eq. cbv beta iota.
        erewrite bind_ok by apply logger_eq.
        erewrite bind_ok by (apply read_fs_eq; simpl; exact E3).
        erewrite bind_ok by apply logger_eq. simpl. by apply Hn.
      * exists 0, (Raise e), (mkState (fs st) (stats st)
                               (log st ++ [mkLog INFO ("Organizing directory: " +:+ directory)])).
        split; [done|]. intros fuel Hf.
        erewrite bind_ok by by apply read_fs_eq. unfold negb. cbv beta iota.
        erewrite bind_ok by by apply read_fs_eq. cbv beta iota.
        erewrite bind_ok by apply logger_eq.
        by erewrite bind_raise by (apply read_fs_eq; simpl; exact E3).
      * by destruct (Hl _ _ _ E3).
    + exists 0, (Ok tt), (mkState (fs st) (stats st)
                            (log st ++ [mkLog ERROR ("Not a directory: " +:+ directory)])).
      split; [done|]. intros fuel Hf.
      erewrite bind_ok by by apply read_fs_eq. unfold negb. cbv beta iota.
      by erewrite bind_ok by by apply read_fs_eq.
    + exists 0, (Raise e), st. split; [done|]. intros fuel Hf.
      erewrite bind_ok by by apply read_fs_eq. unfold negb. cbv beta iota.
      by erewrite bind_raise by by apply read_fs_eq.
    + by destruct (path_is_dir_no_timeout _ _ E2).
  - exists 0, (Ok tt), (mkState (fs st) (stats st)
                          (log st ++ [mkLog ERROR ("Directory does not exist: " +:+ directory)])).
    split; [done|]. intros fuel Hf.
    by erewrite bind_ok by by apply read_fs_eq.
  - exists 0, (Raise e), st. split; [done|]. intros fuel Hf.
    by erewrite bind_raise by by apply read_fs_eq.
  - unfold path_exists, sys in E1. by repeat case_match.
Qed.

Lemma organize_directories_returns rc dirs :
  (∀ b fs0 p, list_files b fs0 p ≠ OutOfFuel) →
  ∀ st, ∃ n r st', r ≠ OutOfFuel
    ∧ ∀ fuel, n ≤ fuel → organize_directories fuel rc dirs st = (r, st').
Proof.
  intros Hl. induction dirs as [|d rest IH]; intros st.
  - by exists 0, (Ok tt), st.
  - destruct (organize_directory_returns rc d st Hl) as (n1 & r1 & s1 & Hr1 & H1).
    destruct r1 as [[]|e|]; [| |done].
    + destruct (IH s1) as (n2 & r2 & s2 & Hr2 & H2).
      exists (n1 `max` n2), r2, s2. split; [done|]. intros fuel Hf. simpl.
      erewrite bind_ok by (apply H1; lia). apply H2. lia.
    + exists n1, (Raise e), s1. split; [done|]. intros fuel Hf. simpl.
      by erewrite bind_raise by (apply H1; lia).
Qed.

Lemma run_returns rc st :
  (∀ b fs0 p, list_files b fs0 p ≠ OutOfFuel) →
  ∃ n r st', r ≠ OutOfFuel ∧ ∀ fuel, n ≤ fuel → run fuel rc st = (r, st').
Proof.
  intros Hl. unfold run.
  destruct (watch_directories rc) as [|d rest] eqn:E.
  - exists 0, (Ok tt),
      (mkState (fs st) (stats st)
         ((log st ++ start_records) ++ [mkLog WARNING "No watch directories configured!"])).
    split; [done|]. intros fuel Hf. by erewrite bind_ok by reflexivity.
  - destruct (organize_directories_returns rc (d :: rest) Hl
                (mkState (fs st) (stats st) (log st ++ start_records)))
      as (n & r & s1 & Hr & H).
    destruct r as [[]|e|]; [| |done].
    + exists n, (Ok tt),
        (mkState (fs s1) (stats s1) (log s1 ++ summary_records (stats s1))).
      split; [done|]. intros fuel Hf. erewrite bind_ok by reflexivity.
      by erewrite bind_ok by (apply H; lia).
    + exists n, (Raise e), s1. split; [done|]. intros fuel Hf.
      erewrite bind_ok by reflexivity.
      by erewrite bind_raise by (apply H; lia).
Qed.

(** X21. When the enumeration of a directory comes to an end, so does
    [main]: with enough fuel it returns or raises, and the outcome does not
    depend on how much more fuel there is. The only loop of the program
    that could go on, the search for a free name in [_handle_duplicate],
    ends on every file system. *)
Theorem X21_main_terminates args rc st :
  (∀ b fs0 p, list_files b fs0 p ≠ OutOfFuel) →
  ∃ n r st', r ≠ OutOfFuel ∧ ∀ fuel, n ≤ fuel → main fuel args rc st = (r, st').
Proof.
  intros Hl. unfold main. cbv zeta.
  destruct (arg_show_config args).
  - by exists 0, (Ok tt), st.
  - apply run_returns, Hl.
Qed.
End Program.

(** * The claims at concrete inputs *)

Lemma C1_get_file_category_spec_witness :
  Str.lower (suffix (Path_of_string "/w/Notes.TXT")) ∈ extensions (mkRule [".png"; ".txt"] "/base/Images")
  ∧ _get_file_category sample_cfg (Path_of_string "/w/Notes.TXT") = Some "Documents".
Proof.
  assert (Str.lower (suffix (Path_of_string "/w/Notes.TXT")) ∈ [".txt"; ".PDF"]) as Hin
    by (apply (bool_decide_unpack _); vm_compute; exact I).
  split; [apply (bool_decide_unpack _); vm_compute; exact I|].
  destruct (C1_get_file_category_spec sample_cfg (Path_of_string "/w/Notes.TXT"))
    as (_ & _ & H & _).
  apply (H ltac:(apply (bool_decide_unpack _); vm_compute; exact I)
           ltac:(apply (bool_decide_unpack _); vm_compute; exact I)
           [] "Documents" (mkRule [".txt"; ".PDF"] "/base/Documents")
           [("Images", mkRule [".png"; ".txt"] "/base/Images")]).
  - reflexivity.
  - constructor.
  - exact Hin.
Defined.

Lemma C2_handle_duplicate_witness :
  (∀ p, fault sample_fs SysExists p = None)
  ∧ wf_path (Path_of_string "/base/Documents/a.txt")
  ∧ ∃ k, 1 ≤ k ≤ S (size (entries sample_fs))
      ∧ ∀ fuel, k < fuel →
          _handle_duplicate fuel rename_cfg sample_fs (Path_of_string "/base/Documents/a.txt")
          = Ok (Some (candidate (Path_of_string "/base/Documents/a.txt") k)).
Proof.
  assert (∀ p, fault sample_fs SysExists p = None) as Hf by (intros p; reflexivity).
  assert (wf_path (Path_of_string "/base/Documents/a.txt")) as Hwf by (repeat constructor).
  split; [exact Hf|]. split; [exact Hwf|].
  destruct (C2_handle_duplicate rename_cfg sample_fs _ Hf Hwf) as (_ & _ & _ & H).
  destruct H as (k & Hk & _ & _ & _ & _ & _ & Hrun).
  - exists file_node. vm_compute. reflexivity.
  - reflexivity.
  - exists k. split; [exact Hk | exact Hrun].
Defined.

Lemma C3_directory_returns_false_witness :
  path_is_dir (fs sample_state) (Path_of_string "/base/Documents") = Ok true
  ∧ organize_file sample_strftime 5 sample_cfg (Path_of_string "/base/Documents") sample_state
    = (Ok false, sample_state).
Proof.
  assert (path_is_dir (fs sample_state) (Path_of_string "/base/Documents") = Ok true) as H
    by (vm_compute; reflexivity).
  split; [exact H|]. exact (C3_directory_returns_false sample_strftime 5 sample_cfg _ _ H).
Defined.

(** C3 as the spec words it fails: a directory is not counted as skipped. *)
Lemma C3_directory_not_counted :
  path_is_dir (fs sample_state) (Path_of_string "/base/Documents") = Ok true
  ∧ skipped (stats (organize_file sample_strftime 5 sample_cfg
                      (Path_of_string "/base/Documents") sample_state).2)
    ≠ S (skipped (stats sample_state)).
Proof. split; [vm_compute; reflexivity|]. vm_compute. discriminate. Qed.

Lemma C4_failures_are_caught_witness :
  organize_file_body sample_strftime 5 sample_cfg (Path_of_string "/w/a.txt") denied_state
  = (Raise (PermissionError "[Errno 13] Permission denied"), denied_state)
  ∧ organize_file sample_strftime 5 sample_cfg (Path_of_string "/w/a.txt") denied_state
    = (Ok false,
       record_error (Path_of_string "/w/a.txt")
         (PermissionError "[Errno 13] Permission denied") denied_state)
  ∧ errors (stats (record_error (Path_of_string "/w/a.txt")
                     (PermissionError "[Errno 13] Permission denied") denied_state))
    = S (errors (stats denied_state)).
Proof.
  assert (organize_file_body sample_strftime 5 sample_cfg (Path_of_string "/w/a.txt")
            denied_state
          = (Raise (PermissionError "[Errno 13] Permission denied"), denied_state)) as H
    by (vm_compute; reflexivity).
  split; [exact H|].
  destruct (C4_failures_are_caught sample_strftime 5 sample_cfg _ [] _ _ _ H)
    as (H1 & H2 & _).
  split; [exact H1 | exact H2].
Defined.

Lemma C5_extras_base_folder_witness :
  organize_by_date sample_cfg = false
  ∧ (_get_target_path sample_strftime sample_cfg (Path_of_string "/w/b.xyz") "Extras"
       sample_state).1
    = Ok (Path_of_string "/base/Extras/b.xyz").
Proof.
  split; [reflexivity|].
  destruct (C5_extras_base_folder sample_strftime sample_cfg (Path_of_string "/w/b.xyz")
              sample_state) as [_ H].
  specialize (H (Path_of_string "/base/Extras/b.xyz")
                (_get_target_path sample_strftime sample_cfg (Path_of_string "/w/b.xyz")
                   "Extras" sample_state).2
                eq_refl).
  assert (_get_target_path sample_strftime sample_cfg (Path_of_string "/w/b.xyz") "Extras"
            sample_state
          = (Ok (Path_of_string "/base/Extras/b.xyz"),
             (_get_target_path sample_strftime sample_cfg (Path_of_string "/w/b.xyz")
                "Extras" sample_state).2)) as Hrun
    by (vm_compute; reflexivity).
  pose proof (H Hrun) as _. by rewrite Hrun.
Defined.

(** C5 as the spec words it fails: with no category configured the folder is
    the path written in the program, and the configuration does not hold
    it. *)
Lemma C5_default_not_from_configuration :
  organize_rules no_rules_cfg = []
  ∧ base_folder no_rules_cfg "Extras" sample_state
    = (Ok (Path_of_string "C:\Users\lnloh\Documents\Organized\Extras"), sample_state)
  ∧ "C:\Users\lnloh\Documents\Organized\Extras" ∉ config_strings no_rules_cfg.
Proof.
  split; [reflexivity|]. split; [reflexivity|].
  apply (bool_decide_unpack _). vm_compute. exact I.
Qed.

Lemma C6_unstable_not_forwarded_witness :
  (str (Path_of_string "/w/a.txt") ∉ processing_files idle_handler)
  ∧ _process_file sample_strftime 5 sample_cfg (λ fs0, fs0) grow (Path_of_string "/w/a.txt")
      "created" idle_handler
    = (Ok tt, rejected (Path_of_string "/w/a.txt") (grow sample_fs)
                [still_written_record (Path_of_string "/w/a.txt")] idle_handler).
Proof.
  assert (str (Path_of_string "/w/a.txt") ∉ processing_files idle_handler) as Hnew
    by (simpl; apply not_elem_of_empty).
  split; [exact Hnew|].
  destruct (C6_unstable_not_forwarded sample_strftime 5 sample_cfg (λ fs0, fs0) grow
              (Path_of_string "/w/a.txt") "created" idle_handler Hnew) as (_ & _ & H).
  apply (H file_node (mkNode false 20 1710000001)).
  - vm_compute. reflexivity.
  - vm_compute. reflexivity.
  - vm_compute. reflexivity.
  - vm_compute. reflexivity.
  - simpl. lia.
Defined.

Lemma C7_in_flight_event_dropped_witness :
  (str (Path_of_string "/w/a.txt") ∈ processing_files busy_handler)
  ∧ _process_file sample_strftime 5 sample_cfg (λ fs0, fs0) grow (Path_of_string "/w/a.txt")
      "created" busy_handler
    = (Ok tt, busy_handler).
Proof.
  assert (str (Path_of_string "/w/a.txt") ∈ processing_files busy_handler) as Hin
    by (simpl; apply elem_of_singleton; reflexivity).
  split; [exact Hin|].
  destruct (C7_in_flight_event_dropped sample_strftime 5 sample_cfg (λ fs0, fs0) grow
              (Path_of_string "/w/a.txt") "created" busy_handler) as (H & _).
  exact (H Hin).
Defined.



Lemma C10_other_values_rename_witness :
  duplicate_handling keep_both_cfg ≠ Some "skip"
  ∧ duplicate_handling keep_both_cfg ≠ Some "overwrite"
  ∧ _handle_duplicate 5 keep_both_cfg sample_fs (Path_of_string "/base/Documents/a.txt")
    = _handle_duplicate 5 (with_duplicate_handling (Some "rename") keep_both_cfg) sample_fs
        (Path_of_string "/base/Documents/a.txt").
Proof.
  assert (duplicate_handling keep_both_cfg ≠ Some "skip") as H1 by discriminate.
  assert (duplicate_handling keep_both_cfg ≠ Some "overwrite") as H2 by discriminate.
  split; [exact H1|]. split; [exact H2|].
  exact (C10_other_values_rename keep_both_cfg 5 sample_fs _ H1 H2).
Defined.

(** * The further properties at concrete inputs *)

Lemma X1_handle_duplicate_free_witness :
  duplicate_handling rename_cfg ≠ Some "overwrite"
  ∧ _handle_duplicate 5 rename_cfg sample_fs (Path_of_string "/base/Documents/a.txt")
    = Ok (Some (Path_of_string "/base/Documents/a_2.txt"))
  ∧ entries sample_fs !! Path_of_string "/base/Documents/a_2.txt" = None.
Proof.
  assert (duplicate_handling rename_cfg ≠ Some "overwrite") as Hp
    by (apply (bool_decide_unpack _); vm_compute; exact I).
  assert (_handle_duplicate 5 rename_cfg sample_fs (Path_of_string "/base/Documents/a.txt")
          = Ok (Some (Path_of_string "/base/Documents/a_2.txt"))) as Hrun
    by (vm_compute; reflexivity).
  split; [exact Hp|]. split; [exact Hrun|].
  exact (proj1 (X1_handle_duplicate_free 5 rename_cfg sample_fs _ _ Hp Hrun)).
Defined.

Lemma X2_organize_file_keeps_other_entries_witness :
  duplicate_handling sample_cfg ≠ Some "overwrite"
  ∧ Path_of_string "/base/Documents/a.txt" ≠ Path_of_string "/w/a.txt"
  ∧ entries (fs sample_state) !! Path_of_string "/base/Documents/a.txt" = Some file_node
  ∧ entries (fs (organize_file sample_strftime 5 sample_cfg (Path_of_string "/w/a.txt")
                   sample_state).2) !! Path_of_string "/base/Documents/a.txt"
    = Some file_node.
Proof.
  assert (duplicate_handling sample_cfg ≠ Some "overwrite") as Hp
    by (apply (bool_decide_unpack _); vm_compute; exact I).
  assert (Path_of_string "/base/Documents/a.txt" ≠ Path_of_string "/w/a.txt") as Hq
    by (apply (bool_decide_unpack _); vm_compute; exact I).
  assert (entries (fs sample_state) !! Path_of_string "/base/Documents/a.txt"
          = Some file_node) as He by (vm_compute; reflexivity).
  split; [exact Hp|]. split; [exact Hq|]. split; [exact He|].
  exact (proj2 (X2_organize_file_keeps_other_entries sample_strftime 5 sample_cfg
                  (Path_of_string "/w/a.txt") sample_state Hp) _ _ Hq He).
Defined.

Lemma X3_organize_file_moved_witness :
  (organize_file sample_strftime 5 sample_cfg (Path_of_string "/w/a.txt") sample_state).1
  = Ok true
  ∧ dry_run sample_cfg = false
  ∧ duplicate_handling sample_cfg ≠ Some "overwrite"
  ∧ ∃ folder dest n,
      (dest = joinpath folder "a.txt"
       ∨ ∃ k, 1 ≤ k ∧ dest = candidate (joinpath folder "a.txt") k)
      ∧ dest ≠ Path_of_string "/w/a.txt"
      ∧ entries sample_fs !! dest = None
      ∧ entries (fs (organize_file sample_strftime 5 sample_cfg
                       (Path_of_string "/w/a.txt") sample_state).2) !! dest = Some n
      ∧ entries (fs (organize_file sample_strftime 5 sample_cfg
                       (Path_of_string "/w/a.txt") sample_state).2)
          !! Path_of_string "/w/a.txt" = None.
Proof.
  assert (organize_file sample_strftime 5 sample_cfg (Path_of_string "/w/a.txt") sample_state
          = (Ok true,
             (organize_file sample_strftime 5 sample_cfg (Path_of_string "/w/a.txt")
                sample_state).2)) as Hrun
    by (vm_compute; reflexivity).
  assert (duplicate_handling sample_cfg ≠ Some "overwrite") as Hp
    by (apply (bool_decide_unpack _); vm_compute; exact I).
  split; [by rewrite Hrun|]. split; [reflexivity|]. split; [exact Hp|].
  destruct (X3_organize_file_moved sample_strftime 5 sample_cfg (Path_of_string "/w/a.txt")
              sample_state _ Hrun eq_refl Hp)
    as (folder & dest & n & H1 & H2 & H3 & H4 & H5 & _).
  exists folder, dest, n. repeat split; assumption.
Defined.

Lemma X4_organize_file_counts_witness :
  (organize_file sample_strftime 5 skip_cfg (Path_of_string "/w/a.txt") sample_state).1
  = Ok false
  ∧ moved (stats (organize_file sample_strftime 5 skip_cfg (Path_of_string "/w/a.txt")
                    sample_state).2) = 0
  ∧ skipped (stats (organize_file sample_strftime 5 skip_cfg (Path_of_string "/w/a.txt")
                      sample_state).2)
    + errors (stats (organize_file sample_strftime 5 skip_cfg (Path_of_string "/w/a.txt")
                       sample_state).2) = 1.
Proof.
  assert (organize_file sample_strftime 5 skip_cfg (Path_of_string "/w/a.txt") sample_state
          = (Ok false,
             (organize_file sample_strftime 5 skip_cfg (Path_of_string "/w/a.txt")
                sample_state).2)) as Hrun
    by (vm_compute; reflexivity).
  split; [by rewrite Hrun|].
  destruct (X4_organize_file_counts sample_strftime 5 skip_cfg (Path_of_string "/w/a.txt")
              sample_state false _ Hrun) as (H1 & _ & _ & H2).
  split; [exact H1 | exact H2].
Defined.

Lemma X5_organize_file_ignored_witness :
  path_is_dir (fs sample_state) (Path_of_string "/w/page.TMP") = Ok false
  ∧ falsy (_get_file_category sample_cfg (Path_of_string "/w/page.TMP")) = true
  ∧ organize_file sample_strftime 5 sample_cfg (Path_of_string "/w/page.TMP") sample_state
    = (Ok false,
       record_skip (mkLog DEBUG "Skipping ignored file: page.TMP") sample_state).
Proof.
  assert (path_is_dir (fs sample_state) (Path_of_string "/w/page.TMP") = Ok false) as Hd
    by (vm_compute; reflexivity).
  assert (falsy (_get_file_category sample_cfg (Path_of_string "/w/page.TMP")) = true) as Hc
    by (vm_compute; reflexivity).
  split; [exact Hd|]. split; [exact Hc|].
  exact (X5_organize_file_ignored sample_strftime 5 sample_cfg _ _ Hd Hc).
Defined.

Lemma X6_organize_file_skip_duplicate_witness :
  duplicate_handling skip_cfg = Some "skip"
  ∧ (_get_target_path sample_strftime skip_cfg (Path_of_string "/w/a.txt") "Documents"
       sample_state).1
    = Ok (Path_of_string "/base/Documents/a.txt")
  ∧ is_Some (entries sample_fs !! Path_of_string "/base/Documents/a.txt")
  ∧ (organize_file sample_strftime 5 skip_cfg (Path_of_string "/w/a.txt") sample_state).1
    = Ok false
  ∧ skipped (stats (organize_file sample_strftime 5 skip_cfg (Path_of_string "/w/a.txt")
                      sample_state).2) = 1.
Proof.
  assert (_get_target_path sample_strftime skip_cfg (Path_of_string "/w/a.txt") "Documents"
            sample_state
          = (Ok (Path_of_string "/base/Documents/a.txt"),
             (_get_target_path sample_strftime skip_cfg (Path_of_string "/w/a.txt")
                "Documents" sample_state).2)) as Ht
    by (vm_compute; reflexivity).
  assert (is_Some (entries sample_fs !! Path_of_string "/base/Documents/a.txt")) as Hs
    by (exists file_node; vm_compute; reflexivity).
  destruct (X6_organize_file_skip_duplicate sample_strftime 5 skip_cfg
              (Path_of_string "/w/a.txt") sample_state "Documents"
              (Path_of_string "/base/Documents/a.txt")
              (_get_target_path sample_strftime skip_cfg (Path_of_string "/w/a.txt")
                 "Documents" sample_state).2) as [Hrun _].
  - reflexivity.
  - vm_compute. reflexivity.
  - vm_compute. reflexivity.
  - apply (bool_decide_unpack _). vm_compute. exact I.
  - exact Ht.
  - vm_compute. reflexivity.
  - exists file_node. vm_compute. reflexivity.
  - split; [reflexivity|]. split; [by rewrite Ht|]. split; [exact Hs|].
    by rewrite Hrun.
Defined.

Lemma X7_dry_run_keeps_entries_witness :
  arg_dry_run sample_args = true
  ∧ entries (fs sample_state) !! Path_of_string "/w/a.txt" = Some file_node
  ∧ entries (fs (main sample_strftime sample_list_files 5 sample_args sample_rc
                   sample_state).2) !! Path_of_string "/w/a.txt" = Some file_node.
Proof.
  assert (entries (fs sample_state) !! Path_of_string "/w/a.txt" = Some file_node) as He
    by (vm_compute; reflexivity).
  split; [reflexivity|]. split; [exact He|].
  exact (X7_dry_run_keeps_entries sample_strftime sample_list_files 5 sample_args sample_rc
           (or_introl eq_refl) sample_state _ _ He).
Defined.

Lemma X8_get_target_path_dated_witness :
  organize_by_date dated_cfg = true
  ∧ (_get_target_path sample_strftime dated_cfg (Path_of_string "/w/a.txt") "Documents"
       sample_state).1
    = Ok (Path_of_string "/base/Documents/2024-03/a.txt")
  ∧ ∃ base nd,
      entries sample_fs !! Path_of_string "/w/a.txt" = Some nd
      ∧ Path_of_string "/base/Documents/2024-03/a.txt"
        = joinpath (joinpath base (sample_strftime "%Y-%m" (st_mtime nd))) "a.txt".
Proof.
  assert (_get_target_path sample_strftime dated_cfg (Path_of_string "/w/a.txt") "Documents"
            sample_state
          = (Ok (Path_of_string "/base/Documents/2024-03/a.txt"),
             (_get_target_path sample_strftime dated_cfg (Path_of_string "/w/a.txt")
                "Documents" sample_state).2)) as Ht
    by (vm_compute; reflexivity).
  split; [reflexivity|]. split; [by rewrite Ht|].
  destruct (X8_get_target_path_dated sample_strftime dated_cfg (Path_of_string "/w/a.txt")
              "Documents" sample_state _ _ eq_refl Ht) as (base & nd & _ & Hnd & Hp & _).
  exists base, nd. split; [exact Hnd | exact Hp].
Defined.

Lemma X9_organize_file_dated_missing_witness :
  organize_by_date dated_cfg = true
  ∧ entries (fs sample_state) !! Path_of_string "/w/gone.txt" = None
  ∧ organize_file sample_strftime 5 dated_cfg (Path_of_string "/w/gone.txt") sample_state
    = (Ok false,
       record_error (Path_of_string "/w/gone.txt")
         (OtherError "FileNotFoundError" "/w/gone.txt") sample_state).
Proof.
  assert (entries (fs sample_state) !! Path_of_string "/w/gone.txt" = None) as He
    by (vm_compute; reflexivity).
  split; [reflexivity|]. split; [exact He|].
  apply (X9_organize_file_dated_missing sample_strftime 5 dated_cfg
           (Path_of_string "/w/gone.txt") sample_state).
  - reflexivity.
  - vm_compute. reflexivity.
  - vm_compute. reflexivity.
  - reflexivity.
  - exact He.
Defined.

Lemma X10_base_folder_matching_rule_witness :
  NoDup (organize_rules sample_cfg).*1
  ∧ _get_file_category sample_cfg (Path_of_string "/w/a.txt") = Some "Documents"
  ∧ ∃ r, ("Documents", r) ∈ organize_rules sample_cfg
         ∧ Str.lower (suffix (Path_of_string "/w/a.txt")) ∈ extensions r
         ∧ base_folder sample_cfg "Documents" sample_state
           = (Ok (Path_of_string (target_folder r)), sample_state).
Proof.
  assert (NoDup (organize_rules sample_cfg).*1) as Hn
    by (apply (bool_decide_unpack _); vm_compute; exact I).
  assert (_get_file_category sample_cfg (Path_of_string "/w/a.txt") = Some "Documents")
    as Hc by (vm_compute; reflexivity).
  split; [exact Hn|]. split; [exact Hc|].
  apply (X10_base_folder_matching_rule sample_cfg (Path_of_string "/w/a.txt") "Documents"
           sample_state Hn Hc).
  apply (bool_decide_unpack _). vm_compute. exact I.
Defined.

Lemma X11_organize_files_counts_witness :
  (organize_files sample_strftime 5 sample_cfg
     [Path_of_string "/w/a.txt"; Path_of_string "/base"; Path_of_string "/w/b.xyz"]
     sample_state).1 = Ok tt
  ∧ let st' := (organize_files sample_strftime 5 sample_cfg
                  [Path_of_string "/w/a.txt"; Path_of_string "/base";
                   Path_of_string "/w/b.xyz"] sample_state).2 in
    moved (stats st') + skipped (stats st') + errors (stats st') ≤ 3.
Proof.
  assert (organize_files sample_strftime 5 sample_cfg
            [Path_of_string "/w/a.txt"; Path_of_string "/base"; Path_of_string "/w/b.xyz"]
            sample_state
          = (Ok tt,
             (organize_files sample_strftime 5 sample_cfg
                [Path_of_string "/w/a.txt"; Path_of_string "/base";
                 Path_of_string "/w/b.xyz"] sample_state).2)) as Hrun
    by (vm_compute; reflexivity).
  split; [by rewrite Hrun|].
  exact (proj2 (proj2 (proj2 (X11_organize_files_counts sample_strftime 5 sample_cfg _ _ _
                                Hrun)))).
Defined.

Lemma X13_organize_directory_rejected_witness :
  path_exists (fs sample_state) (Path_of_string "/nowhere") = Ok false
  ∧ organize_directory sample_strftime sample_list_files 5 sample_rc "/nowhere" sample_state
    = (Ok tt, mkState sample_fs (mkStats 0 0 0)
                [mkLog ERROR "Directory does not exist: /nowhere"])
  ∧ path_exists (fs sample_state) (Path_of_string "/w/a.txt") = Ok true
  ∧ path_is_dir (fs sample_state) (Path_of_string "/w/a.txt") = Ok false
  ∧ organize_directory sample_strftime sample_list_files 5 sample_rc "/w/a.txt" sample_state
    = (Ok tt, mkState sample_fs (mkStats 0 0 0) [mkLog ERROR "Not a directory: /w/a.txt"]).
Proof.
  assert (path_exists (fs sample_state) (Path_of_string "/nowhere") = Ok false) as H1
    by (vm_compute; reflexivity).
  assert (path_exists (fs sample_state) (Path_of_string "/w/a.txt") = Ok true) as H2
    by (vm_compute; reflexivity).
  assert (path_is_dir (fs sample_state) (Path_of_string "/w/a.txt") = Ok false) as H3
    by (vm_compute; reflexivity).
  split; [exact H1|].
  split; [exact (proj1 (X13_organize_directory_rejected sample_strftime sample_list_files 5
                          sample_rc "/nowhere" sample_state) H1)|].
  split; [exact H2|]. split; [exact H3|].
  exact (proj2 (X13_organize_directory_rejected sample_strftime sample_list_files 5
                  sample_rc "/w/a.txt" sample_state) H2 H3).
Defined.

Lemma X14_organize_directory_raise_witness :
  organize_directory sample_strftime sample_list_files 5 sample_rc "/w" unreadable_state
  = (Raise (PermissionError "[Errno 13] Permission denied"), unreadable_state)
  ∧ path_exists (fs unreadable_state) (Path_of_string "/w")
    = Raise (PermissionError "[Errno 13] Permission denied").
Proof.
  assert (organize_directory sample_strftime sample_list_files 5 sample_rc "/w"
            unreadable_state
          = (Raise (PermissionError "[Errno 13] Permission denied"), unreadable_state))
    as Hrun by (vm_compute; reflexivity).
  split; [exact Hrun|].
  destruct (X14_organize_directory_raise sample_strftime sample_list_files 5 sample_rc "/w"
              unreadable_state _ _ Hrun) as [[H|[H|H]] _].
  - exact H.
  - vm_compute in H. discriminate H.
  - vm_compute in H. discriminate H.
Defined.

Lemma X15_run_aborted_witness :
  watch_directories sample_rc = ["/w"; "/nowhere"]
  ∧ path_exists (fs unreadable_state) (Path_of_string "/w")
    = Raise (PermissionError "[Errno 13] Permission denied")
  ∧ run sample_strftime sample_list_files 5 sample_rc unreadable_state
    = (Raise (PermissionError "[Errno 13] Permission denied"),
       mkState (fs unreadable_state) (mkStats 0 0 0) start_records).
Proof.
  assert (path_exists (fs unreadable_state) (Path_of_string "/w")
          = Raise (PermissionError "[Errno 13] Permission denied")) as He
    by (vm_compute; reflexivity).
  split; [reflexivity|]. split; [exact He|].
  exact (X15_run_aborted sample_strftime sample_list_files 5 sample_rc "/w" ["/nowhere"]
           unreadable_state _ eq_refl He).
Defined.

Lemma X16_run_summary_witness :
  watch_directories sample_rc ≠ []
  ∧ (run sample_strftime sample_list_files 5 sample_rc sample_state).1 = Ok tt
  ∧ ∃ s1, log (run sample_strftime sample_list_files 5 sample_rc sample_state).2
          = log s1 ++ summary_records
                        (stats (run sample_strftime sample_list_files 5 sample_rc
                                  sample_state).2).
Proof.
  assert (watch_directories sample_rc ≠ []) as Hw
    by (apply (bool_decide_unpack _); vm_compute; exact I).
  assert (run sample_strftime sample_list_files 5 sample_rc sample_state
          = (Ok tt, (run sample_strftime sample_list_files 5 sample_rc sample_state).2))
    as Hrun by (vm_compute; reflexivity).
  split; [exact Hw|]. split; [by rewrite Hrun|].
  destruct (X16_run_summary sample_strftime sample_list_files 5 sample_rc sample_state _
              Hw Hrun) as (s1 & _ & _ & _ & Hl).
  exists s1. exact Hl.
Defined.

Lemma X18_process_file_probe_error_witness :
  (str (Path_of_string "/w/a.txt") ∉ processing_files stat_denied_handler)
  ∧ path_exists (fs (organizer stat_denied_handler)) (Path_of_string "/w/a.txt") = Ok true
  ∧ path_stat (fs (organizer stat_denied_handler)) (Path_of_string "/w/a.txt")
    = Raise (OtherError "OSError" "[Errno 5] Input/output error")
  ∧ _process_file sample_strftime 5 sample_cfg (λ fs0, fs0) grow (Path_of_string "/w/a.txt")
      "created" stat_denied_handler
    = (Ok tt, rejected (Path_of_string "/w/a.txt") (fs (organizer stat_denied_handler))
                [probe_error_record (Path_of_string "/w/a.txt")
                   (OtherError "OSError" "[Errno 5] Input/output error")]
                stat_denied_handler).
Proof.
  assert (str (Path_of_string "/w/a.txt") ∉ processing_files stat_denied_handler) as Hnew
    by (simpl; apply not_elem_of_empty).
  assert (path_exists (fs (organizer stat_denied_handler)) (Path_of_string "/w/a.txt")
          = Ok true) as He by (vm_compute; reflexivity).
  assert (path_stat (fs (organizer stat_denied_handler)) (Path_of_string "/w/a.txt")
          = Raise (OtherError "OSError" "[Errno 5] Input/output error")) as Hs
    by (vm_compute; reflexivity).
  split; [exact Hnew|]. split; [exact He|]. split; [exact Hs|].
  destruct (X18_process_file_probe_error sample_strftime 5 sample_cfg (λ fs0, fs0) grow
              (Path_of_string "/w/a.txt") "created" stat_denied_handler
              (OtherError "OSError" "[Errno 5] Input/output error") Hnew) as (_ & H & _).
  exact (H He Hs).
Defined.

Lemma X19_release_after_event_witness :
  (str (Path_of_string "/w/a.txt") ∉ processing_files idle_handler)
  ∧ (str (Path_of_string "/w/a.txt") ∉ timers idle_handler)
  ∧ (_process_file sample_strftime 5 sample_cfg (λ fs0, fs0) (λ fs0, fs0)
       (Path_of_string "/w/a.txt") "created" idle_handler).1 ≠ OutOfFuel
  ∧ processing_files
      (remove_from_processing "/w/a.txt"
         (_process_file sample_strftime 5 sample_cfg (λ fs0, fs0) (λ fs0, fs0)
            (Path_of_string "/w/a.txt") "created" idle_handler).2)
    = processing_files idle_handler
  ∧ timers
      (remove_from_processing "/w/a.txt"
         (_process_file sample_strftime 5 sample_cfg (λ fs0, fs0) (λ fs0, fs0)
            (Path_of_string "/w/a.txt") "created" idle_handler).2)
    = timers idle_handler.
Proof.
  assert (str (Path_of_string "/w/a.txt") ∉ processing_files idle_handler) as Hnew
    by (simpl; apply not_elem_of_empty).
  assert (str (Path_of_string "/w/a.txt") ∉ timers idle_handler) as Ht
    by (simpl; apply not_elem_of_nil).
  assert ((_process_file sample_strftime 5 sample_cfg (λ fs0, fs0) (λ fs0, fs0)
             (Path_of_string "/w/a.txt") "created" idle_handler).1 ≠ OutOfFuel) as Hr
    by (vm_compute; discriminate).
  split; [exact Hnew|]. split; [exact Ht|]. split; [exact Hr|].
  destruct (X19_release_after_event sample_strftime 5 sample_cfg (λ fs0, fs0) (λ fs0, fs0)
              (Path_of_string "/w/a.txt") "created" idle_handler Hnew Ht Hr)
    as (H1 & H2 & _).
  split; [exact H1 | exact H2].
Defined.

Lemma X20_start_watches_existing_witness :
  (∀ p, fault (fs sample_state) SysExists p = None)
  ∧ (start sample_rc sample_state).1 = Ok (Watching ["/w"]).
Proof.
  assert (∀ p, fault (fs sample_state) SysExists p = None) as Hf by (intros p; reflexivity).
  split; [exact Hf|].
  destruct (X20_start_watches_existing sample_rc sample_state Hf) as (st' & Hrun & _).
  rewrite Hrun. vm_compute. reflexivity.
Defined.

Lemma X21_main_terminates_witness :
  (∀ b fs0 p, sample_list_files b fs0 p ≠ OutOfFuel)
  ∧ ∃ n r st', r ≠ OutOfFuel
      ∧ ∀ fuel, n ≤ fuel →
          main sample_strftime sample_list_files fuel sample_args sample_rc sample_state
          = (r, st').
Proof.
  assert (∀ b fs0 p, sample_list_files b fs0 p ≠ OutOfFuel) as Hl
    by (intros b fs0 p; unfold sample_list_files; discriminate).
  split; [exact Hl|].
  exact (X21_main_terminates sample_strftime sample_list_files sample_args sample_rc
           sample_state Hl).
Defined.
